(** * ai-lib: model selection, task classification, context handling, LLM client

    A shallow embedding of the JavaScript library under [src/ai-lib] and of its
    LLM client, together with the properties its specification states.

    Conventions of the embedding.
    - A JavaScript string is a [string]: a sequence of 8-bit characters read
      as code units U+0000..U+00FF.  [length], [substring], [includes],
      [toLowerCase] and [trim] are the ECMAScript functions on such strings.
    - A JavaScript number that is a count or an index is a [Z]; a number that
      is a price or a product with a fraction is a binary64 [float], the type
      ECMAScript numbers have.
    - A JavaScript object used as a dictionary is a [gmap string _]; an object
      whose enumeration order matters is an association list.
    - [undefined] is [None] where a lookup can miss.
    - Code that awaits the network takes the network as an argument and
      returns, next to its value, the list of requests it has sent. *)

From Stdlib Require Import ZArith Ascii List Floats Lia Bool.
From Stdlib Require String DecimalString.
From stdpp Require Import gmap strings list fin_maps.

Set Warnings "-inexact-float,-register-all".

Local Open Scope Z_scope.

(** ** JavaScript strings *)

Module JsString.

Definition length (s : string) : Z :=
  Z.of_nat (Stdlib.Strings.String.length s).

(** [s.startsWith(p)] *)
Fixpoint startsWith (s p : string) {struct p} : bool :=
  match p, s with
  | EmptyString, _ => true
  | String _ _, EmptyString => false
  | String c p', String d s' =>
      if Ascii.eqb c d then startsWith s' p' else false
  end.

(** [s.includes(p)]: [p] occurs in [s] at some position. *)
Fixpoint includes (s p : string) : bool :=
  startsWith s p ||
  match s with
  | EmptyString => false
  | String _ s' => includes s' p
  end.

(** The lower-case mapping of one code unit below U+0100: the letters A-Z
    and the Latin-1 capitals U+00C0..U+00DE (U+00D7, the multiplication
    sign, apart) move up by 32; nothing else changes. *)
Definition lowerChar (c : ascii) : ascii :=
  let n := N_of_ascii c in
  if ((65 <=? n) && (n <=? 90))%N then ascii_of_N (n + 32)
  else if ((192 <=? n) && (n <=? 222) && negb (n =? 215))%N
       then ascii_of_N (n + 32)
  else c.

Fixpoint toLowerCase (s : string) : string :=
  match s with
  | EmptyString => EmptyString
  | String c s' => String (lowerChar c) (toLowerCase s')
  end.

(** White space and line terminators below U+0100: TAB, LF, VT, FF, CR,
    SPACE and NO-BREAK SPACE. *)
Definition isWhiteSpace (c : ascii) : bool :=
  let n := N_of_ascii c in
  (((9 <=? n) && (n <=? 13)) || (n =? 32) || (n =? 160))%N.

Fixpoint trimStart (s : string) : string :=
  match s with
  | EmptyString => EmptyString
  | String c s' => if isWhiteSpace c then trimStart s' else s
  end.

(** [trimEnd] keeps a character when it is not white space or when
    something is kept after it. *)
Fixpoint trimEnd (s : string) : string :=
  match s with
  | EmptyString => EmptyString
  | String c s' =>
      match trimEnd s' with
      | EmptyString => if isWhiteSpace c then EmptyString
                       else String c EmptyString
      | t => String c t
      end
  end.

Definition trim (s : string) : string := trimEnd (trimStart s).

(** [s.substring(0, n)] for [0 <= n]. *)
Fixpoint take (n : nat) (s : string) : string :=
  match n, s with
  | O, _ => EmptyString
  | S _, EmptyString => EmptyString
  | S n', String c s' => String c (take n' s')
  end.

(** [s.substring(0, n)]: a negative [n] counts as 0. *)
Definition substring0 (n : Z) (s : string) : string := take (Z.to_nat n) s.

(** A string is falsy exactly when it is empty. *)
Definition truthy (s : string) : bool :=
  match s with EmptyString => false | String _ _ => true end.

End JsString.

(** [a || b] on values that are strings or [undefined]. *)
Definition js_or_string (a b : option string) : option string :=
  match a with
  | Some s => if JsString.truthy s then a else b
  | None => b
  end.

(** ** models.js *)

Definition TEXT_LENGTH_THRESHOLDS_SHORT : Z := 100.
Definition TEXT_LENGTH_THRESHOLDS_MEDIUM : Z := 500.
Definition TEXT_LENGTH_THRESHOLDS_LONG : Z := 1000.
Definition TEXT_LENGTH_THRESHOLDS_VERY_LONG : Z := 2000.

Record ContextConfig := mkContextConfig {
  maxContextMessages : Z;
  contextMaxTokens : Z;
  contextStrategy : string
}.

Record ModelConfig := mkModelConfig {
  provider : string;
  name : string;
  maxTokens : Z;
  costPer1kTokens : float;
  speed : string;
  quality : string;
  bestFor : list string;
  capabilities : list string;
  contextConfig : ContextConfig
}.

Definition MODEL_REGISTRY : gmap string ModelConfig :=
  list_to_map [
    ("llama3-8b-8192",
     mkModelConfig "groq" "Llama 3 8B" 8192 0.00005%float "fast" "good"
       ["short"; "medium"]
       ["chat"; "analysis"; "summarization"]
       (mkContextConfig 3 4000 "recent"));
    ("llama3-70b-8192",
     mkModelConfig "groq" "Llama 3 70B" 8192 0.00059%float "medium" "excellent"
       ["medium"; "long"; "very_long"]
       ["chat"; "analysis"; "summarization"; "creation"; "ideation"]
       (mkContextConfig 6 8000 "smart"));
    ("mixtral-8x7b-32768",
     mkModelConfig "groq" "Mixtral 8x7B" 32768 0.00024%float "medium" "excellent"
       ["long"; "very_long"]
       ["chat"; "analysis"; "summarization"; "creation"; "ideation";
        "conversion"]
       (mkContextConfig 8 16000 "comprehensive"));
    ("gpt-4",
     mkModelConfig "openai" "GPT-4" 8192 0.03%float "medium" "excellent"
       ["medium"; "long"; "very_long"]
       ["chat"; "analysis"; "summarization"; "creation"; "ideation";
        "conversion"]
       (mkContextConfig 10 6000 "comprehensive"));
    ("claude-3-sonnet",
     mkModelConfig "anthropic" "Claude 3 Sonnet" 200000 0.03%float "medium"
       "excellent"
       ["long"; "very_long"]
       ["chat"; "analysis"; "summarization"; "creation"; "ideation";
        "conversion"]
       (mkContextConfig 12 100000 "comprehensive"))
  ].

Definition DEFAULT_MODELS : gmap string string :=
  list_to_map [
    ("SHORT", "llama3-8b-8192");
    ("MEDIUM", "llama3-70b-8192");
    ("LONG", "mixtral-8x7b-32768");
    ("VERY_LONG", "llama3-70b-8192")
  ].

Definition COST_OPTIMIZED : gmap string string :=
  list_to_map [
    ("SHORT", "llama3-8b-8192");
    ("MEDIUM", "llama3-8b-8192");
    ("LONG", "llama3-70b-8192");
    ("VERY_LONG", "llama3-70b-8192")
  ].

Definition QUALITY_OPTIMIZED : gmap string string :=
  list_to_map [
    ("SHORT", "llama3-70b-8192");
    ("MEDIUM", "llama3-70b-8192");
    ("LONG", "mixtral-8x7b-32768");
    ("VERY_LONG", "claude-3-sonnet")
  ].

Definition SPEED_OPTIMIZED : gmap string string :=
  list_to_map [
    ("SHORT", "llama3-8b-8192");
    ("MEDIUM", "llama3-8b-8192");
    ("LONG", "llama3-8b-8192");
    ("VERY_LONG", "llama3-70b-8192")
  ].

Definition BALANCED : gmap string string :=
  list_to_map [
    ("SHORT", "llama3-8b-8192");
    ("MEDIUM", "llama3-70b-8192");
    ("LONG", "mixtral-8x7b-32768");
    ("VERY_LONG", "llama3-70b-8192")
  ].

Definition MODEL_SELECTION_STRATEGIES : gmap string (gmap string string) :=
  list_to_map [
    ("COST_OPTIMIZED", COST_OPTIMIZED);
    ("QUALITY_OPTIMIZED", QUALITY_OPTIMIZED);
    ("SPEED_OPTIMIZED", SPEED_OPTIMIZED);
    ("BALANCED", BALANCED)
  ].

(** The names of the supported strategies and of the complexity buckets. *)
Definition SUPPORTED_STRATEGIES : list string :=
  ["COST_OPTIMIZED"; "QUALITY_OPTIMIZED"; "SPEED_OPTIMIZED"; "BALANCED"].

Definition COMPLEXITY_BUCKETS : list string :=
  ["SHORT"; "MEDIUM"; "LONG"; "VERY_LONG"].

(** The property names a plain object inherits from [Object.prototype].  A
    lookup [obj[key]] with one of these keys finds the inherited value, and
    an assignment to [__proto__] sets no own property; the dictionaries of
    this embedding hold own properties only, so statements about lookups
    with an arbitrary key leave these keys out.  For the registry of
    models, [ModelManager.getModelConfigValue] writes the inherited read
    out. *)
Definition inheritedNames : list string :=
  ["constructor"; "hasOwnProperty"; "isPrototypeOf"; "propertyIsEnumerable";
   "toLocaleString"; "toString"; "valueOf"; "__proto__";
   "__defineGetter__"; "__defineSetter__"; "__lookupGetter__";
   "__lookupSetter__"].

Module ModelManager.

Record t := mk {
  strategy : string;
  models : gmap string string
}.

(** [constructor(strategy = "BALANCED")]: a table is an object, hence
    truthy, so [||] falls back exactly when the lookup misses. *)
Definition new (strategy : string) : t :=
  mk strategy
     (match MODEL_SELECTION_STRATEGIES !! strategy with
      | Some table => table
      | None => BALANCED
      end).

(** [this.models[complexity] || this.models.SHORT]; [None] is
    [undefined]. *)
Definition getModelForComplexity (this : t) (complexity : string)
  : option string :=
  js_or_string (models this !! complexity) (models this !! "SHORT").

(** [MODEL_REGISTRY[modelId] || MODEL_REGISTRY["llama3-8b-8192"]], over the
    registry object as it stands at the call ([addCustomModel] extends
    it), for an identifier outside [inheritedNames]: the read is the read
    of an own property.  [getModelConfigValue] below is the same
    expression for every identifier. *)
Definition getModelConfig (registry : gmap string ModelConfig)
    (modelId : string) : option ModelConfig :=
  match registry !! modelId with
  | Some config => Some config
  | None => registry !! "llama3-8b-8192"
  end.

(** What [getModelConfig] returns for an identifier of any kind: a
    configuration of the registry, or the member of [Object.prototype] the
    read [MODEL_REGISTRY[modelId]] finds under an inherited name (a
    function, or the prototype object itself under [__proto__]). *)
Inductive ConfigValue :=
| Registered (config : ModelConfig)
| PrototypeMember (name : string).

(** [MODEL_REGISTRY[modelId] || MODEL_REGISTRY["llama3-8b-8192"]] with the
    read of the plain object written out: an own property first, then the
    members of [Object.prototype], which are truthy, so that [||] keeps
    them; the default model only when both miss. *)
Definition getModelConfigValue (registry : gmap string ModelConfig)
    (modelId : string) : option ConfigValue :=
  match registry !! modelId with
  | Some config => Some (Registered config)
  | None =>
      if bool_decide (modelId ∈ inheritedNames)
      then Some (PrototypeMember modelId)
      else option_map Registered (registry !! "llama3-8b-8192")
  end.

(** [config.costPer1kTokens] as the arithmetic takes it: a member of
    [Object.prototype] has no such property, and [undefined] is NaN as a
    number. *)
Definition costPer1kTokensOf (config : ConfigValue) : float :=
  match config with
  | Registered config => costPer1kTokens config
  | PrototypeMember _ => nan
  end.

(** [estimateCost(modelId, inputTokens, outputTokens = 0)]: an omitted
    [outputTokens] ([None]) counts as 0.  The result [None] is the
    [TypeError] of reading [costPer1kTokens] of [undefined]. *)
Definition estimateCost (registry : gmap string ModelConfig)
    (modelId : string) (inputTokens : float) (outputTokens : option float)
  : option float :=
  let outputTokens :=
    match outputTokens with Some n => n | None => 0%float end in
  match getModelConfigValue registry modelId with
  | Some config =>
      let inputCost := (inputTokens / 1000 * costPer1kTokensOf config)%float in
      let outputCost :=
        (outputTokens / 1000 * (costPer1kTokensOf config * 2))%float in
      Some (inputCost + outputCost)%float
  | None => None
  end.

Definition setStrategy (this : t) (strategy : string) : t :=
  match MODEL_SELECTION_STRATEGIES !! strategy with
  | Some table => mk strategy table
  | None => this
  end.

Definition getStrategy (this : t) : string := strategy this.

(** [config.capabilities.includes(capability)]; [None] is the [TypeError]
    of reading [capabilities] of [undefined]. *)
Definition modelSupportsCapability (registry : gmap string ModelConfig)
    (modelId capability : string) : option bool :=
  match getModelConfig registry modelId with
  | Some config =>
      Some (existsb (fun c => String.eqb c capability) (capabilities config))
  | None => None
  end.

End ModelManager.

(** ** JavaScript numbers and arrays *)

(** The binary64 number nearest to a natural number (ties to even, and
    infinity from [2^1024 - 2^970] on).  Below [2^63] it is the conversion
    of a machine integer; above, the 63 leading bits are converted, with
    the rest of the bits gathered into the lowest of them, which is far
    below the 53 bits that are kept, and the result is scaled back. *)
Definition float_of_nonneg (z : Z) : float :=
  if z <? 2 ^ 63 then PrimFloat.of_uint63 (Uint63.of_Z z)
  else
    let shift := Z.log2 z - 62 in
    let leading := Z.shiftr z shift in
    let sticky := if Z.land z (Z.ones shift) =? 0 then 0 else 1 in
    Z.ldexp (PrimFloat.of_uint63 (Uint63.of_Z (Z.lor leading sticky))) shift.

(** The binary64 number of an integer; exact for [|z| <= 2^53]. *)
Definition float_of_Z (z : Z) : float :=
  if z <? 0 then (- float_of_nonneg (- z))%float else float_of_nonneg z.

(** [Math.floor] of a finite binary64 number, as an integer.  The callers
    below apply it to finite products only; infinities and NaN map to 0. *)
Definition Math_floor (f : float) : Z :=
  match Prim2SF f with
  | SpecFloat.S754_finite negative m e =>
      let scaled := if negative then Z.neg m else Z.pos m in
      if 0 <=? e then scaled * 2 ^ e else scaled / 2 ^ (- e)
  | _ => 0
  end.

(** [Math.ceil(n / 4)] for an integer [n]: the division by 4 is exact in
    binary64. *)
Definition ceil_div4 (n : Z) : Z := - ((- n) / 4).

Section JsArray.
Context {A : Type}.

(** The value of a read past the end of an array. *)
Variable undefined : A.

(** [arr[i]] *)
Definition at_index (arr : list A) (i : Z) : A :=
  if i <? 0 then undefined else nth (Z.to_nat i) arr undefined.

(** [arr.slice(start)]: a negative [start] counts from the end, and both
    ends are clamped to the array. *)
Definition slice_from (start : Z) (arr : list A) : list A :=
  let len := Z.of_nat (length arr) in
  let k := if start <? 0 then Z.max (len + start) 0 else Z.min start len in
  drop (Z.to_nat k) arr.

End JsArray.

(** ** contextManager.js *)

Record Message := mkMessage {
  role : string;
  content : string
}.

Definition CONTEXT_STRATEGIES_RECENT : string := "recent".
Definition CONTEXT_STRATEGIES_SMART : string := "smart".
Definition CONTEXT_STRATEGIES_COMPREHENSIVE : string := "comprehensive".
Definition CONTEXT_STRATEGIES_MINIMAL : string := "minimal".

(** One turn of a chat history: [{user, response?}]. *)
Record Turn := mkTurn {
  user : string;
  response : option string
}.

(** A chat history object; [messages] may be missing. *)
Record ChatHistory := mkChatHistory {
  messages : option (list Turn)
}.

Module ContextManager.

Section Selection.
Context {A : Type}.
Variable undefined : A.

Definition selectRecentMessages (messages : list A) (maxContextMessages : Z)
  : list A :=
  slice_from (- maxContextMessages) messages.

Definition selectSmartMessages (messages : list A) (maxContextMessages : Z)
  : list A :=
  if Z.of_nat (length messages) <=? maxContextMessages then messages
  else
    let recentMessages := slice_from (- maxContextMessages + 1) messages in
    let firstMessage := at_index undefined messages 0 in
    firstMessage :: recentMessages.

Definition selectComprehensiveMessages (messages : list A)
    (maxContextMessages : Z) : list A :=
  if Z.of_nat (length messages) <=? maxContextMessages then messages
  else
    let first := at_index undefined messages 0 in
    let middle :=
      at_index undefined messages (Z.of_nat (length messages) / 2) in
    let recent := slice_from (- maxContextMessages + 2) messages in
    first :: middle :: recent.

Definition selectMinimalMessages (messages : list A) (maxContextMessages : Z)
  : list A :=
  let minimalCount := Z.min maxContextMessages 2 in
  slice_from (- minimalCount) messages.

(** [selectContextMessages(messages, model, maxContextMessages)]; [None] is
    the [TypeError] of reading [contextConfig] of [undefined], which needs a
    registry without the default model. *)
Definition selectContextMessages (registry : gmap string ModelConfig)
    (messages : list A) (model : string) (maxContextMessages : Z)
  : option (list A) :=
  match messages with
  | [] => Some []
  | _ :: _ =>
      match ModelManager.getModelConfig registry model with
      | None => None
      | Some config =>
          let strategy := contextStrategy (contextConfig config) in
          Some
            (if String.eqb strategy CONTEXT_STRATEGIES_RECENT
             then selectRecentMessages messages maxContextMessages
             else if String.eqb strategy CONTEXT_STRATEGIES_SMART
             then selectSmartMessages messages maxContextMessages
             else if String.eqb strategy CONTEXT_STRATEGIES_COMPREHENSIVE
             then selectComprehensiveMessages messages maxContextMessages
             else if String.eqb strategy CONTEXT_STRATEGIES_MINIMAL
             then selectMinimalMessages messages maxContextMessages
             else selectRecentMessages messages maxContextMessages)
      end
  end.

End Selection.

(** [estimateTokenCount(text)]: [Math.ceil(text.length / 4)]. *)
Definition estimateTokenCount (text : string) : Z :=
  ceil_div4 (JsString.length text).

(** The loop of [optimizeContext], from the most recent message backwards:
    [pending] holds the messages not yet visited, most recent first, and
    [optimizedMessages] grows at its front ([unshift]). *)
Fixpoint optimizeLoop (maxContextTokens : Z) (pending : list Message)
    (totalTokens : Z) (optimizedMessages : list Message) : list Message :=
  match pending with
  | [] => optimizedMessages
  | message :: earlier =>
      let messageTokens := estimateTokenCount (content message) in
      if totalTokens + messageTokens <=? maxContextTokens then
        optimizeLoop maxContextTokens earlier (totalTokens + messageTokens)
          (message :: optimizedMessages)
      else
        let remainingTokens := maxContextTokens - totalTokens in
        let maxChars := remainingTokens * 4 in
        if 100 <? maxChars then
          let truncatedMessage :=
            mkMessage (role message)
              (JsString.substring0 maxChars (content message) +:+ "...") in
          truncatedMessage :: optimizedMessages
        else optimizedMessages
  end.

(** [Math.floor(maxTokens * 0.7)], in binary64 as the code computes it. *)
Definition maxContextTokensOf (maxTokens : Z) : Z :=
  Math_floor (float_of_Z maxTokens * 0.7)%float.

(** [optimizeContext(contextMessages, model, maxTokens)]; the model's
    configuration is read and not used. *)
Definition optimizeContext (registry : gmap string ModelConfig)
    (contextMessages : list Message) (model : string) (maxTokens : Z)
  : list Message :=
  let config := ModelManager.getModelConfig registry model in
  let maxContextTokens := maxContextTokensOf maxTokens in
  optimizeLoop maxContextTokens (rev contextMessages) 0 [].

(** The sum of the estimated token counts of a list of messages
    ([getContextStats] computes it as [totalTokens]). *)
Definition totalTokensOf (contextMessages : list Message) : Z :=
  fold_left (fun sum msg => sum + estimateTokenCount (content msg))
    contextMessages 0.

Definition buildMessagesArray (systemPrompt : string)
    (contextMessages : list Message) (userQuery : string) : list Message :=
  mkMessage "system" systemPrompt
  :: contextMessages ++ [mkMessage "user" userQuery].

(** The loop of [processChatHistory]: [push] appends at the end. *)
Fixpoint processTurns (turns : list Turn) (contextMessages : list Message)
  : list Message :=
  match turns with
  | [] => contextMessages
  | msg :: later =>
      let pushed := contextMessages ++ [mkMessage "user" (user msg)] in
      match response msg with
      | Some text =>
          if JsString.truthy text
          then processTurns later (pushed ++ [mkMessage "assistant" text])
          else processTurns later pushed
      | None => processTurns later pushed
      end
  end.

(** [processChatHistory(chatHistory)]; [None] is a [null] or [undefined]
    history. *)
Definition processChatHistory (chatHistory : option ChatHistory)
  : list Message :=
  match chatHistory with
  | Some history =>
      match messages history with
      | Some turns => processTurns turns []
      | None => []
      end
  | None => []
  end.

Record ContextStats := mkContextStats {
  messageCount : Z;
  totalTokens : Z;
  maxContextTokens : Z;
  usagePercentage : float;
  stats_strategy : string
}.

(** [getContextStats(contextMessages, model)]; [None] is the [TypeError] of
    reading [contextConfig] of [undefined]. *)
Definition getContextStats (registry : gmap string ModelConfig)
    (contextMessages : list Message) (model : string) : option ContextStats :=
  let totalTokens := totalTokensOf contextMessages in
  match ModelManager.getModelConfig registry model with
  | Some config =>
      let maxContextTokens := contextMaxTokens (contextConfig config) in
      let usagePercentage :=
        (float_of_Z totalTokens / float_of_Z maxContextTokens * 100)%float in
      Some (mkContextStats (Z.of_nat (length contextMessages)) totalTokens
              maxContextTokens usagePercentage
              (contextStrategy (contextConfig config)))
  | None => None
  end.

End ContextManager.

(** ** Values, exceptions and the network *)

(** A parsed JSON document. *)
Inductive Json :=
| JNull
| JBool (b : bool)
| JNumber (f : float)
| JString (s : string)
| JArray (items : list Json)
| JObject (fields : list (string * Json)).

(** A thrown value: an [Error] object, of which the code reads [message]. *)
Record JsError := mkError {
  message : string
}.

(** How the evaluation of an expression ends. *)
Inductive Completion (T : Type) :=
| Returns (value : T)
| Throws (error : JsError).
Arguments Returns {T} value.
Arguments Throws {T} error.

(** The body of a POST to a chat-completion endpoint, before
    [JSON.stringify]. *)
Record RequestBody := mkRequestBody {
  body_model : string;
  body_max_tokens : Z;
  body_temperature : float;
  body_messages : list Message
}.

Record Request := mkRequest {
  url : option string;
  method : string;
  headers : list (string * string);
  body : RequestBody
}.

(** What [fetch] resolves to: the status code and what the two body readers
    [text()] and [json()] give when awaited. *)
Record Response := mkResponse {
  status : Z;
  text : Completion string;
  json : Completion Json
}.

(** [response.ok]: the status is in the range 200-299. *)
Definition ok (r : Response) : bool :=
  (200 <=? status r) && (status r <=? 299).

Inductive FetchOutcome :=
| FetchRejects (error : JsError)
| FetchResolves (response : Response).

(** An asynchronous computation: it returns or throws, and extends the log
    of the requests sent so far. *)
Definition Eff (T : Type) : Type :=
  list Request -> Completion T * list Request.

Definition ret {T} (v : T) : Eff T := fun log => (Returns v, log).

Definition throw {T} (e : JsError) : Eff T := fun log => (Throws e, log).

Definition bind {T U} (m : Eff T) (k : T -> Eff U) : Eff U :=
  fun log =>
    match m log with
    | (Returns v, log') => k v log'
    | (Throws e, log') => (Throws e, log')
    end.

(** [try { m } catch (error) { handler error }] *)
Definition try_catch {T} (m : Eff T) (handler : JsError -> Eff T) : Eff T :=
  fun log =>
    match m log with
    | (Returns v, log') => (Returns v, log')
    | (Throws e, log') => handler e log'
    end.

(** [await] of a body reader, whose outcome the response carries. *)
Definition await {T} (c : Completion T) : Eff T := fun log => (c, log).

(** [await fetch(...)] against a network [net]: the request is logged, and
    a rejected promise throws. *)
Definition fetch (net : Request -> FetchOutcome) (request : Request)
  : Eff Response :=
  fun log =>
    match net request with
    | FetchRejects e => (Throws e, log ++ [request])
    | FetchResolves r => (Returns r, log ++ [request])
    end.

Declare Scope eff_scope.
Delimit Scope eff_scope with eff.
Notation "x <- m ;; k" := (bind m (fun x => k))
  (at level 100, m at next level, right associativity) : eff_scope.

(** Sequencing of steps that can throw and do not touch the network. *)
Definition and_then {T U} (c : Completion T) (k : T -> Completion U)
  : Completion U :=
  match c with
  | Returns v => k v
  | Throws e => Throws e
  end.

Declare Scope completion_scope.
Delimit Scope completion_scope with completion.
Notation "x <- c ;; k" := (and_then c (fun x => k))
  (at level 100, c at next level, right associativity) : completion_scope.

(** *** Reading a JSON value the way JavaScript does

    A value is a [Json] or [undefined] ([None]). *)

Definition TypeError (text : string) : JsError := mkError text.

(** The value of a key of an object; a list that repeats a key stands for
    the object with the first of its bindings. *)
Fixpoint lookup_field (key : string) (fields : list (string * Json))
  : option Json :=
  match fields with
  | [] => None
  | (k, v) :: rest => if String.eqb k key then Some v else lookup_field key rest
  end.

(** The key an array or a string gives to its index [i]. *)
Definition index_key (i : nat) : string :=
  DecimalString.NilZero.string_of_uint (Nat.to_uint i).

Definition first_char (s : string) : option Json :=
  match s with
  | EmptyString => None
  | String c _ => Some (JString (String c EmptyString))
  end.

(** [v.key] for a key that is a name ([choices], [message], [content]):
    reading a property of [undefined] or [null] throws; arrays, strings,
    numbers and booleans have no such property. *)
Definition get_named (v : option Json) (key : string)
  : Completion (option Json) :=
  match v with
  | None | Some JNull =>
      Throws (TypeError "Cannot read properties of undefined or null")
  | Some (JObject fields) => Returns (lookup_field key fields)
  | Some _ => Returns None
  end.

(** [v[0]] *)
Definition get_first (v : option Json) : Completion (option Json) :=
  match v with
  | None | Some JNull =>
      Throws (TypeError "Cannot read properties of undefined or null")
  | Some (JObject fields) => Returns (lookup_field "0" fields)
  | Some (JArray items) => Returns (head items)
  | Some (JString s) => Returns (first_char s)
  | Some _ => Returns None
  end.

(** [v.length] *)
Definition get_length (v : option Json) : Completion (option Json) :=
  match v with
  | None | Some JNull =>
      Throws (TypeError "Cannot read properties of undefined or null")
  | Some (JObject fields) => Returns (lookup_field "length" fields)
  | Some (JArray items) =>
      Returns (Some (JNumber (float_of_Z (Z.of_nat (length items)))))
  | Some (JString s) => Returns (Some (JNumber (float_of_Z (JsString.length s))))
  | Some _ => Returns None
  end.

(** Truthiness of a value. *)
Definition truthy (v : option Json) : bool :=
  match v with
  | None | Some JNull => false
  | Some (JBool b) => b
  | Some (JNumber f) => negb (PrimFloat.eqb f 0 || negb (PrimFloat.eqb f f))
  | Some (JString s) => JsString.truthy s
  | Some (JArray _) | Some (JObject _) => true
  end.

Section Coercion.

(** [ToNumber] on the values whose conversion goes through a string
    (strings, arrays, objects); ECMAScript defines it, this library does
    not depend on which number it gives. *)
Variable ToNumber : Json -> float.

(** [v > 0] *)
Definition greater_than_zero (v : option Json) : bool :=
  match v with
  | None => false
  | Some JNull => false
  | Some (JBool b) => b
  | Some (JNumber f) => PrimFloat.ltb 0 f
  | Some j => PrimFloat.ltb 0 (ToNumber j)
  end.

End Coercion.

(** [v.trim()]: only a string has the method. *)
Definition call_trim (v : option Json) : Completion string :=
  match v with
  | Some (JString s) => Returns (JsString.trim s)
  | None | Some JNull =>
      Throws (TypeError "Cannot read properties of undefined or null")
  | Some _ => Throws (TypeError "trim is not a function")
  end.

(** The own enumerable properties of a value, which an object spread
    [{...v}] copies: the fields of an object, the indexed elements of an
    array, the indexed characters of a string, and nothing else. *)
Fixpoint indexed {T} (i : nat) (items : list T) : list (string * T) :=
  match items with
  | [] => []
  | x :: rest => (index_key i, x) :: indexed (S i) rest
  end.

Fixpoint chars (s : string) : list Json :=
  match s with
  | EmptyString => []
  | String c rest => JString (String c EmptyString) :: chars rest
  end.

Definition own_properties (v : Json) : list (string * Json) :=
  match v with
  | JObject fields => fields
  | JArray items => indexed 0 items
  | JString s => indexed 0 (chars s)
  | _ => []
  end.

(** ** taskClassifier.js *)

Record TaskConfig := mkTaskConfig {
  task_name : string;
  task_description : string;
  keywords : list string;
  task_maxTokens : Z;
  task_temperature : float
}.

(** [TASK_TYPES], in the order [Object.entries] enumerates it. *)
Definition TASK_TYPES : list (string * TaskConfig) := [
  ("LLM_Summary",
   mkTaskConfig "Summary" "Summarize or condense information"
     ["summary"; "summarise"; "summarize"; "condense"; "brief"; "overview"]
     2000 0.3%float);
  ("LLM_Creation",
   mkTaskConfig "Creation" "Generate creative content"
     ["create"; "generate"; "write"; "compose"; "craft"; "develop"]
     1500 0.7%float);
  ("LLM_Ideation",
   mkTaskConfig "Ideation" "Brainstorm ideas and suggestions"
     ["ideate"; "brainstorm"; "suggest"; "ideas"; "options"; "alternatives"]
     1200 0.5%float);
  ("LLM_Analysis",
   mkTaskConfig "Analysis" "Analyze, explain, or evaluate content"
     ["analyze"; "analyse"; "analysis"; "explain"; "compare"; "evaluate";
      "assess"; "examine"; "study"; "review"]
     2500 0.2%float);
  ("LLM_Converter",
   mkTaskConfig "Converter" "Convert or transform content"
     ["convert"; "transform"; "translate"; "reformat"; "adapt"; "modify"]
     1500 0.4%float);
  ("LLM_Default",
   mkTaskConfig "General" "General conversation and assistance"
     [] 1500 0.3%float)
].

Inductive Complexity := SHORT | MEDIUM | LONG | VERY_LONG.

(** The string a complexity level is in the JavaScript code. *)
Definition complexity_name (c : Complexity) : string :=
  match c with
  | SHORT => "SHORT"
  | MEDIUM => "MEDIUM"
  | LONG => "LONG"
  | VERY_LONG => "VERY_LONG"
  end.

Record TextStats := mkTextStats {
  stat_length : Z;
  wordCount : Z;
  sentenceCount : Z;
  paragraphCount : Z;
  complexityScore : float
}.

Record Analysis := mkAnalysis {
  analysis_complexity : Complexity;
  analysis_reason : string;
  analysis_stats : TextStats
}.

(** The decimal numeral of a non-negative integer, as a template literal
    prints it. *)
Definition decimal (n : Z) : string :=
  DecimalString.NilZero.string_of_uint (N.to_uint (Z.to_N n)).

Module TextComplexityAnalyzer.

(** The number of maximal runs of characters that satisfy [p]; [inside]
    tells that the previous character did. *)
Fixpoint count_runs (p : ascii -> bool) (inside : bool) (s : string) : Z :=
  match s with
  | EmptyString => 0
  | String c rest =>
      if p c then (if inside then 0 else 1) + count_runs p true rest
      else count_runs p false rest
  end.

Definition isSentenceEnd (c : ascii) : bool :=
  Ascii.eqb c "." || Ascii.eqb c "!" || Ascii.eqb c "?".

Definition isLineFeed (c : ascii) : bool := Ascii.eqb c "010".

(** The number of matches of [/\n\s*\n/]: a run of white space holds one
    match when it has two line feeds or more, since the match starts at the
    first of them and [\s*] takes it to the last.  [newlines] counts the
    line feeds of the current run. *)
Fixpoint count_blank_lines (newlines : nat) (s : string) : Z :=
  match s with
  | EmptyString => 0
  | String c rest =>
      if JsString.isWhiteSpace c then
        if isLineFeed c
        then (if Nat.eqb newlines 1 then 1 else 0)
             + count_blank_lines (S newlines) rest
        else count_blank_lines newlines rest
      else count_blank_lines 0 rest
  end.

Definition analyticalKeywords : list string :=
  ["analyze"; "analyse"; "compare"; "evaluate"; "summarize"; "summarise";
   "explain"; "discuss"; "research"; "study"; "review"; "assess"].

(** [analyticalKeywords.some(keyword => text.toLowerCase().includes(keyword))] *)
Definition hasAnalyticalContent (text : string) : bool :=
  existsb (fun keyword => JsString.includes (JsString.toLowerCase text) keyword)
    analyticalKeywords.

(** [TextComplexityAnalyzer.analyze(text)] for a string [text]. *)
Definition analyze (text : string) : Analysis :=
  if negb (JsString.truthy text) then
    mkAnalysis SHORT "Empty or invalid text" (mkTextStats 0 0 0 0 0%float)
  else
    let length := JsString.length text in
    let wordCount := count_runs JsString.isWhiteSpace false text + 1 in
    let sentenceCount := count_runs isSentenceEnd false text + 1 - 1 in
    let paragraphCount := count_blank_lines 0 text + 1 in
    let complexityScore :=
      (float_of_Z length / 100 + float_of_Z wordCount / 20
       + float_of_Z sentenceCount * 2 + float_of_Z paragraphCount * 3)%float in
    let '(complexity, reason) :=
      if length <=? TEXT_LENGTH_THRESHOLDS_SHORT then
        (SHORT,
         "Short text (" +:+ decimal length +:+ " chars, "
           +:+ decimal wordCount +:+ " words)")
      else if length <=? TEXT_LENGTH_THRESHOLDS_MEDIUM then
        (MEDIUM,
         "Medium text (" +:+ decimal length +:+ " chars, "
           +:+ decimal wordCount +:+ " words)")
      else if length <=? TEXT_LENGTH_THRESHOLDS_LONG then
        (LONG,
         "Long text (" +:+ decimal length +:+ " chars, "
           +:+ decimal wordCount +:+ " words, "
           +:+ decimal sentenceCount +:+ " sentences)")
      else
        (VERY_LONG,
         "Very long text (" +:+ decimal length +:+ " chars, "
           +:+ decimal wordCount +:+ " words, "
           +:+ decimal paragraphCount +:+ " paragraphs)") in
    let upgrade :=
      hasAnalyticalContent text
      && match complexity with SHORT => true | _ => false end in
    mkAnalysis
      (if upgrade then MEDIUM else complexity)
      (if upgrade then reason +:+ " - Upgraded due to analytical keywords"
       else reason)
      (mkTextStats length wordCount sentenceCount paragraphCount
         complexityScore).

End TextComplexityAnalyzer.

Record Classification := mkClassification {
  task : string;
  model : option string;
  complexity : Complexity;
  reason : string;
  stats : option TextStats
}.

Module TaskClassifier.

(** The walk of [determineTaskType] over the entries of the task table. *)
Fixpoint firstMatchingTask (entries : list (string * TaskConfig))
    (query : string) : string :=
  match entries with
  | [] => "LLM_Default"
  | (taskType, taskConfig) :: rest =>
      if String.eqb taskType "LLM_Default" then firstMatchingTask rest query
      else if existsb (fun keyword => JsString.includes query keyword)
                (keywords taskConfig)
      then taskType
      else firstMatchingTask rest query
  end.

(** [determineTaskType(queryText)], over the task table as it stands at the
    call ([addCustomTask] extends it). *)
Definition determineTaskType (taskTypes : list (string * TaskConfig))
    (queryText : string) : string :=
  let query := JsString.trim (JsString.toLowerCase queryText) in
  firstMatchingTask taskTypes query.

Definition getModelForTask (task : string) (complexity : Complexity)
  : string :=
  "llama3-8b-8192".

Definition classificationPrompt (queryText : string) : string :=
  "Classify the following user query into one of the following task types: "
  +:+ "LLM_Summary, LLM_Creation, LLM_Ideation, LLM_Analysis, LLM_Converter, or LLM_Default. "
  +:+ "If the query asks to 'analyze', 'analyse', 'analysis', 'explain', 'compare', 'evaluate', 'assess', or similar, classify as LLM_Analysis. "
  +:+ "Only return the task type." +:+ String "010" (String "010" "User query: ")
  +:+ queryText
  +:+ String "010" "Task type:".

(** The request of the classification call. *)
Definition classificationRequest (queryText : string) : Request :=
  mkRequest (Some "/api/llm") "POST"
    [("Content-Type", "application/json")]
    (mkRequestBody "llama3-8b-8192" 10 0.0%float
       [mkMessage "system"
          "You are a helpful AI assistant that classifies user queries.";
        mkMessage "user" (classificationPrompt queryText)]).

Section Classify.
Variable ToNumber : Json -> float.
Variable net : Request -> FetchOutcome.

(** [result.choices[0].message.content.trim()] from [result.choices[0]]
    on. *)
Definition readChoice (choice : option Json) : Completion string :=
  (msg <- get_named choice "message" ;;
   text <- get_named msg "content" ;;
   call_trim text)%completion.

(** The body of the [if (response.ok)] branch, with the body of the
    response already awaited: the new value of [task]. *)
Definition readClassification (task : string) (response : Response)
  : Completion string :=
  (result <- json response ;;
   choices <- get_named (Some result) "choices" ;;
   if truthy choices then
     len <- get_length choices ;;
     if greater_than_zero ToNumber len then
       choice <- get_first choices ;;
       readChoice choice
     else Returns task
   else Returns task)%completion.

Local Open Scope eff_scope.

(** [classifyQuery(queryText)] for a string [queryText]. *)
Definition classifyQuery (modelManager : ModelManager.t)
    (taskTypes : list (string * TaskConfig)) (queryText : string)
  : Eff Classification :=
  if negb (JsString.truthy queryText) then
    ret (mkClassification "LLM_Default"
           (ModelManager.getModelForComplexity modelManager "SHORT")
           SHORT "Empty query" None)
  else
    let complexityAnalysis := TextComplexityAnalyzer.analyze queryText in
    let task := determineTaskType taskTypes queryText in
    task <-
      (if String.eqb task "LLM_Default" then
         try_catch
           (response <- fetch net (classificationRequest queryText) ;;
            if ok response then await (readClassification task response)
            else ret task)
           (fun e => ret "LLM_Default")
       else ret task) ;;
    let model := getModelForTask task (analysis_complexity complexityAnalysis) in
    ret (mkClassification task (Some model)
           (analysis_complexity complexityAnalysis)
           (analysis_reason complexityAnalysis)
           (Some (analysis_stats complexityAnalysis))).

End Classify.

(** [taskTypes[taskType]]: the entry of a key of the task table. *)
Fixpoint lookup_task (taskType : string) (entries : list (string * TaskConfig))
  : option TaskConfig :=
  match entries with
  | [] => None
  | (k, v) :: rest =>
      if String.eqb k taskType then Some v else lookup_task taskType rest
  end.

(** [TASK_TYPES[taskType] || TASK_TYPES.LLM_Default]; [None] is
    [undefined]. *)
Definition getTaskConfig (taskTypes : list (string * TaskConfig))
    (taskType : string) : option TaskConfig :=
  match lookup_task taskType taskTypes with
  | Some config => Some config
  | None => lookup_task "LLM_Default" taskTypes
  end.

(** [Object.keys(TASK_TYPES)] *)
Definition getAvailableTasks (taskTypes : list (string * TaskConfig))
  : list string :=
  map fst taskTypes.

End TaskClassifier.

(** ** llmClient.js *)

(** The parameter object of [callLLM]. *)
Record Params := mkParams {
  params_model : string;
  params_messages : list Message;
  params_maxTokens : Z;
  params_temperature : float;
  params_task : string;
  params_complexity : string;
  params_reason : string;
  params_contextMessages : option (list Message)
}.

Module LLMClient.

(** The state of a client: [apiKeys] maps a provider to a key or to
    [null] ([None]). *)
Record t := mk {
  endpoints : gmap string string;
  apiKeys : gmap string (option string)
}.

Definition new : t :=
  mk (list_to_map [
        ("groq", "https://api.groq.com/openai/v1/chat/completions");
        ("openai", "/api/openai");
        ("anthropic", "/api/anthropic")])
     (list_to_map [("groq", None); ("openai", None); ("anthropic", None)]).

Definition setApiKey (this : t) (provider : string) (key : option string) : t :=
  mk (endpoints this) (<[provider := key]> (apiKeys this)).

(** [null] and [undefined] are both [None] here. *)
Definition getApiKey (this : t) (provider : string) : option string :=
  match apiKeys this !! provider with
  | Some key => key
  | None => None
  end.

Definition setEndpoint (this : t) (provider endpoint : string) : t :=
  mk (<[provider := endpoint]> (endpoints this)) (apiKeys this).

Definition getEndpoint (this : t) (provider : string) : option string :=
  endpoints this !! provider.

Definition getProviderFromModel (model : string) : string :=
  if JsString.includes model "llama" || JsString.includes model "mixtral"
  then "groq"
  else if JsString.includes model "gpt" then "openai"
  else if JsString.includes model "claude" then "anthropic"
  else "groq".

(** [params.contextMessages?.length || 0] *)
Definition contextMessagesCount (params : Params) : Z :=
  match params_contextMessages params with
  | Some l => Z.of_nat (length l)
  | None => 0
  end.

(** The metadata both envelopes carry, written over [base] in the order of
    the object literal. *)
Definition withMetadata (params : Params) (success : bool)
    (base : gmap string Json) : gmap string Json :=
  <["success" := JBool success]>
  (<["contextMessages" := JNumber (float_of_Z (contextMessagesCount params))]>
  (<["reason" := JString (params_reason params)]>
  (<["complexity" := JString (params_complexity params)]>
  (<["task" := JString (params_task params)]>
  (<["model" := JString (params_model params)]>
  (<["temperature" := JNumber (params_temperature params)]> base)))))).

(** [{...result, temperature, model, ..., success: true}] *)
Definition createSuccessResponse (result : Json) (params : Params)
  : gmap string Json :=
  withMetadata params true (list_to_map (own_properties result)).

(** [{error, details, temperature, model, ..., success: false}] *)
Definition createErrorResponse (error details : string) (params : Params)
  : gmap string Json :=
  withMetadata params false
    (<["details" := JString details]> (<["error" := JString error]> ∅)).

Definition requestOf (this : t) (params : Params) : Request :=
  let provider := getProviderFromModel (params_model params) in
  let endpoint :=
    js_or_string (endpoints this !! provider) (endpoints this !! "groq") in
  let apiKey := getApiKey this provider in
  let headers :=
    ("Content-Type", "application/json")
    :: match apiKey with
       | Some key =>
           if JsString.truthy key
           then [("Authorization", "Bearer " +:+ key)] else []
       | None => []
       end in
  mkRequest endpoint "POST" headers
    (mkRequestBody (params_model params) (params_maxTokens params)
       (params_temperature params) (params_messages params)).

Section Call.
Variable net : Request -> FetchOutcome.
Local Open Scope eff_scope.

(** [callLLM(params)]; the two [console.log] calls have no effect on the
    result. *)
Definition callLLM (this : t) (params : Params) : Eff (gmap string Json) :=
  try_catch
    (response <- fetch net (requestOf this params) ;;
     if negb (ok response) then
       errorText <- await (text response) ;;
       ret (createErrorResponse "LLM call failed" errorText params)
     else
       result <- await (json response) ;;
       ret (createSuccessResponse result params))
    (fun error =>
       ret (createErrorResponse "LLM call error" (message error) params)).

(** [testModel(model)] *)
Definition testModel (this : t) (model : string) : Eff bool :=
  try_catch
    (let testParams :=
       mkParams model [mkMessage "user" "Hello"] 10 0.1%float
         "LLM_Default" "SHORT" "Test" (Some []) in
     result <- callLLM this testParams ;;
     ret (match result !! "success" with
          | Some (JBool true) => true
          | _ => false
          end))
    (fun error => ret false).

End Call.

End LLMClient.

(** ** index.js *)

Module AIOrchestrator.

(** The prompt manager of an orchestrator.  [prompts.js] is not among the
    sources; the constructor takes the prompt manager as an option, and
    [processQuery] calls three methods of it, which are the three functions
    here. *)
Record PromptManager := mkPromptManager {
  getTokenLimit : string -> Complexity -> Z;
  getTemperature : string -> Complexity -> Z -> float;
  getSystemPrompt : string -> Z -> Complexity -> string
}.

(** The components [processQuery] uses.  The task classifier and the
    context manager hold nothing but the model manager the constructor
    links them to. *)
Record t := mk {
  modelManager : ModelManager.t;
  promptManager : PromptManager;
  llmClient : LLMClient.t
}.

Record PromptInfo := mkPromptInfo {
  info_maxTokens : Z;
  info_temperature : float;
  info_systemPrompt : string
}.

Record Metadata := mkMetadata {
  meta_classification : Classification;
  meta_contextStats : ContextManager.ContextStats;
  meta_modelConfig : ModelConfig;
  meta_promptInfo : PromptInfo
}.

(** The object [processQuery] returns: the envelope of [callLLM] and, in
    its [metadata] property, the metadata, which takes the place of a
    [metadata] key of the envelope. *)
Record QueryResult := mkQueryResult {
  envelope : gmap string Json;
  metadata : Metadata
}.

(** [addCustomModel(modelId, config)]: [MODEL_REGISTRY[modelId] = config]. *)
Definition addCustomModel (registry : gmap string ModelConfig)
    (modelId : string) (config : ModelConfig) : gmap string ModelConfig :=
  <[modelId := config]> registry.

(** The number of a property key that is an array index: a canonical
    decimal numeral up to 2^32 - 2.  [Object.entries] enumerates such keys
    first, in ascending order, and the other keys after them in the order
    of their creation. *)
Definition isDigit (c : ascii) : bool :=
  let n := N_of_ascii c in ((48 <=? n) && (n <=? 57))%N.

Fixpoint parseDigits (acc : N) (s : string) : option N :=
  match s with
  | EmptyString => Some acc
  | String c rest =>
      if isDigit c
      then parseDigits (10 * acc + (N_of_ascii c - 48))%N rest
      else None
  end.

Definition arrayIndex (key : string) : option N :=
  match key with
  | EmptyString => None
  | String _ _ =>
      match parseDigits 0 key with
      | Some n =>
          if String.eqb (DecimalString.NilZero.string_of_uint (N.to_uint n))
               key
             && (n <=? 4294967294)%N
          then Some n else None
      | None => None
      end
  end.

(** The entries with the value of an existing key replaced, in place. *)
Fixpoint replaceTask (taskType : string) (config : TaskConfig)
    (entries : list (string * TaskConfig)) : list (string * TaskConfig) :=
  match entries with
  | [] => []
  | (k, v) :: rest =>
      if String.eqb k taskType then (k, config) :: rest
      else (k, v) :: replaceTask taskType config rest
  end.

(** The entries with a new array-index key put at its place among the
    array-index keys that lead the enumeration. *)
Fixpoint insertIndexed (n : N) (taskType : string) (config : TaskConfig)
    (entries : list (string * TaskConfig)) : list (string * TaskConfig) :=
  match entries with
  | [] => [(taskType, config)]
  | (k, v) :: rest =>
      match arrayIndex k with
      | Some m =>
          if (m <? n)%N then (k, v) :: insertIndexed n taskType config rest
          else (taskType, config) :: entries
      | None => (taskType, config) :: entries
      end
  end.

(** [addCustomTask(taskType, config)]: [TASK_TYPES[taskType] = config], on
    the entries in the order of enumeration, for a task type other than
    [__proto__] (that assignment sets the prototype and adds no entry). *)
Definition addCustomTask (taskTypes : list (string * TaskConfig))
    (taskType : string) (config : TaskConfig) : list (string * TaskConfig) :=
  if existsb (fun entry => String.eqb (fst entry) taskType) taskTypes
  then replaceTask taskType config taskTypes
  else match arrayIndex taskType with
       | Some n => insertIndexed n taskType config taskTypes
       | None => taskTypes ++ [(taskType, config)]
       end.

(** [estimateCost(modelId, inputTokens, outputTokens = 0)] of the
    orchestrator hands its arguments to the model manager. *)
Definition estimateCost (registry : gmap string ModelConfig)
    (modelId : string) (inputTokens : float) (outputTokens : option float)
  : option float :=
  ModelManager.estimateCost registry modelId inputTokens
    (Some match outputTokens with Some n => n | None => 0%float end).

Section Query.
Variable ToNumber : Json -> float.
Variable net : Request -> FetchOutcome.

(** The message of the [TypeError] the engine throws when [includes] is
    called on [undefined]. *)
Variable undefinedModelMessage : string.

Local Open Scope eff_scope.

(** The property key of a model identifier that may be [undefined]. *)
Definition modelKey (model : option string) : string :=
  match model with
  | Some m => m
  | None => "undefined"
  end.

(** The value of a read past the end of the context array;
    [selectContextMessages] never makes such a read. *)
Definition noMessage : Message := mkMessage EmptyString EmptyString.

(** [callLLM] on the parameters of [processQuery].  With an [undefined]
    model, [model.includes] throws inside the [try] before any request is
    made, and the error envelope has no [model]. *)
Definition callLLMWith (this : t) (model : option string)
    (messages : list Message) (maxTokens : Z) (temperature : float)
    (classification : Classification) (optimizedContext : list Message)
  : Eff (gmap string Json) :=
  let paramsOf m :=
    mkParams m messages maxTokens temperature (task classification)
      (complexity_name (complexity classification)) (reason classification)
      (Some optimizedContext) in
  match model with
  | Some m => LLMClient.callLLM net (llmClient this) (paramsOf m)
  | None =>
      ret (delete "model"
             (LLMClient.createErrorResponse "LLM call error"
                undefinedModelMessage (paramsOf EmptyString)))
  end.

(** [processQuery(queryText, chatHistory = null)], over the registry and
    the task table as they stand at the call; the [console.log] calls have
    no effect on the result. *)
Definition processQuery (this : t) (registry : gmap string ModelConfig)
    (taskTypes : list (string * TaskConfig)) (queryText : string)
    (chatHistory : option ChatHistory) : Eff QueryResult :=
  classification <-
    TaskClassifier.classifyQuery ToNumber net (modelManager this) taskTypes
      queryText ;;
  let maxTokens :=
    getTokenLimit (promptManager this) (task classification)
      (complexity classification) in
  let temperature :=
    getTemperature (promptManager this) (task classification)
      (complexity classification) 0 in
  let systemPrompt :=
    getSystemPrompt (promptManager this) (task classification) maxTokens
      (complexity classification) in
  let contextMessages := ContextManager.processChatHistory chatHistory in
  let modelId := modelKey (model classification) in
  match ModelManager.getModelConfig registry modelId with
  | None => throw (TypeError "Cannot read properties of undefined")
  | Some modelConfig =>
      match ContextManager.selectContextMessages noMessage registry
              contextMessages modelId
              (maxContextMessages (contextConfig modelConfig)) with
      | None => throw (TypeError "Cannot read properties of undefined")
      | Some selectedContext =>
          let optimizedContext :=
            ContextManager.optimizeContext registry selectedContext modelId
              maxTokens in
          let messages :=
            ContextManager.buildMessagesArray systemPrompt optimizedContext
              queryText in
          result <-
            callLLMWith this (model classification) messages
              maxTokens temperature classification optimizedContext ;;
          match ContextManager.getContextStats registry optimizedContext
                  modelId with
          | None => throw (TypeError "Cannot read properties of undefined")
          | Some contextStats =>
              ret (mkQueryResult (delete "metadata" result)
                     (mkMetadata classification contextStats modelConfig
                        (mkPromptInfo maxTokens temperature systemPrompt)))
          end
      end
  end.

(** [testModel(modelId)] of the orchestrator hands the model to the
    client. *)
Definition testModel (this : t) (modelId : string) : Eff bool :=
  LLMClient.testModel net (llmClient this) modelId.

End Query.

End AIOrchestrator.

(** ** Vocabulary of the specification

    The definitions below are not taken from the code: they say in Rocq what
    the specification's sentences say, so that the code can be compared with
    them. *)

(** [p] occurs in [s]: [s] is some text, then [p], then some text. *)
Definition occurs_in (p s : string) : Prop :=
  exists before after, s = before +:+ p +:+ after.

(** [s.repeat(count)], to write long inputs. *)
Fixpoint repeat_string (s : string) (count : nat) : string :=
  match count with
  | O => EmptyString
  | S n => s +:+ repeat_string s n
  end.

(** The complexity bucket of a length, by the thresholds alone. *)
Definition lengthBucket (length : Z) : Complexity :=
  if length <=? 100 then SHORT
  else if length <=? 500 then MEDIUM
  else if length <=? 1000 then LONG
  else VERY_LONG.

(** The lower-cased text contains one of the analytical keywords. *)
Definition containsAnalyticalKeyword (text : string) : Prop :=
  exists keyword,
    keyword ∈ TextComplexityAnalyzer.analyticalKeywords
    /\ occurs_in keyword (JsString.toLowerCase text).

(** The last [n] elements of a list (all of it when it is shorter). *)
Definition last_n {A} (n : Z) (l : list A) : list A :=
  drop (length l - Z.to_nat n) l.

(** The messages of one turn as the specification words them: the user
    message, and an assistant message exactly when the turn has a
    response. *)
Definition turnMessagesWhenPresent (t : Turn) : list Message :=
  mkMessage "user" (user t)
  :: match response t with
     | Some text => [mkMessage "assistant" text]
     | None => []
     end.

(** The messages of one turn with the assistant message only for a response
    that is a non-empty string. *)
Definition turnMessagesWhenNonEmpty (t : Turn) : list Message :=
  mkMessage "user" (user t)
  :: match response t with
     | Some text =>
         if JsString.truthy text then [mkMessage "assistant" text] else []
     | None => []
     end.

(** No keyword of a task other than [LLM_Default] occurs in the lower-cased
    query. *)
Definition noTaskKeywordOccurs (taskTypes : list (string * TaskConfig))
    (queryText : string) : Prop :=
  forall taskType taskConfig keyword,
    (taskType, taskConfig) ∈ taskTypes ->
    taskType <> "LLM_Default" ->
    keyword ∈ keywords taskConfig ->
    ~ occurs_in keyword (JsString.toLowerCase queryText).

(** The content of one choice: the choice is an object with an object
    [message] with a string [content]. *)
Definition contentOfChoice (choice : option Json) : option string :=
  match choice with
  | Some (JObject choiceFields) =>
      match lookup_field "message" choiceFields with
      | Some (JObject messageFields) =>
          match lookup_field "content" messageFields with
          | Some (JString s) => Some s
          | _ => None
          end
      | _ => None
      end
  | _ => None
  end.

(** The content a classification response offers: the body parses to an
    object whose [choices] is a non-empty array, or an array-like object
    (a [length] above zero and an entry [0]), and the first choice has
    content. *)
Definition usableContent (ToNumber : Json -> float) (body : Completion Json)
  : option string :=
  match body with
  | Returns (JObject fields) =>
      match lookup_field "choices" fields with
      | Some (JArray (choice :: _)) => contentOfChoice (Some choice)
      | Some (JObject entries) =>
          if greater_than_zero ToNumber (lookup_field "length" entries)
          then contentOfChoice (lookup_field "0" entries)
          else None
      | _ => None
      end
  | _ => None
  end.

(** The failing outcomes of the classification call: the transport throws,
    the status is not 2xx, or the response offers no usable content. *)
Inductive classificationFails (ToNumber : Json -> float)
  : FetchOutcome -> Prop :=
| fails_network (e : JsError) :
    classificationFails ToNumber (FetchRejects e)
| fails_status (r : Response) :
    ok r = false -> classificationFails ToNumber (FetchResolves r)
| fails_content (r : Response) :
    ok r = true -> usableContent ToNumber (json r) = None ->
    classificationFails ToNumber (FetchResolves r).

(** The text an error envelope carries for a response that is not 2xx: the
    body text, or the message of the exception of reading it. *)
Definition errorTextOf (body : Completion string) : string :=
  match body with
  | Returns errorText => errorText
  | Throws e => message e
  end.

(** The request metadata an envelope carries. *)
Definition carriesMetadata (params : Params) (envelope : gmap string Json)
  : Prop :=
  envelope !! "temperature" = Some (JNumber (params_temperature params))
  /\ envelope !! "model" = Some (JString (params_model params))
  /\ envelope !! "task" = Some (JString (params_task params))
  /\ envelope !! "complexity" = Some (JString (params_complexity params))
  /\ envelope !! "reason" = Some (JString (params_reason params))
  /\ envelope !! "contextMessages"
     = Some (JNumber (float_of_Z (LLMClient.contextMessagesCount params))).

Definition metadataKeys : list string :=
  ["temperature"; "model"; "task"; "complexity"; "reason"; "contextMessages";
   "success"].

(** A normalized error envelope: [success] is false, [details] is the error
    text, [error] is a string, and the request metadata is there. *)
Definition isErrorEnvelope (params : Params) (details : string)
    (envelope : gmap string Json) : Prop :=
  envelope !! "success" = Some (JBool false)
  /\ envelope !! "details" = Some (JString details)
  /\ (exists error, envelope !! "error" = Some (JString error))
  /\ carriesMetadata params envelope.

(** A normalized success envelope: [success] is true, the request metadata
    is there, and every other key is as in the provider payload. *)
Definition isSuccessEnvelope (params : Params) (result : Json)
    (envelope : gmap string Json) : Prop :=
  envelope !! "success" = Some (JBool true)
  /\ carriesMetadata params envelope
  /\ forall key,
       key ∉ metadataKeys ->
       envelope !! key = lookup_field key (own_properties result).

(** Every model a selection table names is registered, and is a non-empty
    string (so [||] never skips it). *)
Definition table_ok (table : gmap string string) : Prop :=
  forall complexity modelId,
    table !! complexity = Some modelId ->
    JsString.truthy modelId = true /\ is_Some (MODEL_REGISTRY !! modelId).

(** A message with the role user. *)
Definition isUserMessage (m : Message) : bool := String.eqb (role m) "user".

(** The response of a turn when it is a non-empty string. *)
Definition nonEmptyResponse (t : Turn) : option string :=
  match response t with
  | Some text => if JsString.truthy text then Some text else None
  | None => None
  end.

(** The message the truncating branch builds from [message] when
    [remainingTokens] are left. *)
Definition truncatedTo (remainingTokens : Z) (message : Message) : Message :=
  mkMessage (role message)
    (JsString.substring0 (remainingTokens * 4) (content message) +:+ "...").

(** A keyword of a task configuration occurs in a query. *)
Definition keywordOccurs (query : string) (taskConfig : TaskConfig) : Prop :=
  exists keyword,
    keyword ∈ keywords taskConfig /\ occurs_in keyword query.

(** No entry of a list of task entries, the default task apart, has a
    keyword that occurs in a query. *)
Definition noneMatches (query : string)
    (entries : list (string * TaskConfig)) : Prop :=
  forall taskType taskConfig,
    (taskType, taskConfig) ∈ entries ->
    taskType <> "LLM_Default" ->
    ~ keywordOccurs query taskConfig.

(** The parameters [testModel] calls [callLLM] with. *)
Definition testParamsOf (model : string) : Params :=
  mkParams model [mkMessage "user" "Hello"] 10 0.1%float
    "LLM_Default" "SHORT" "Test" (Some []).

(** *** Sample inputs *)

(** A network that answers every request with status 200 and the JSON
    payload [{"id": "r1", "success": false}]. *)
Definition answering_network (request : Request) : FetchOutcome :=
  FetchResolves
    (mkResponse 200 (Returns "{}")
       (Returns (JObject [("id", JString "r1"); ("success", JBool false)]))).

(** A network whose transport throws. *)
Definition failing_network (request : Request) : FetchOutcome :=
  FetchRejects (mkError "fetch failed").

(** A network that answers every request with status 500. *)
Definition refusing_network (request : Request) : FetchOutcome :=
  FetchResolves
    (mkResponse 500 (Returns "server error")
       (Throws (mkError "Unexpected token"))).

(** A network that answers every request with status 204 and no body, so
    that reading the body as JSON throws. *)
Definition bodiless_network (request : Request) : FetchOutcome :=
  FetchResolves
    (mkResponse 204 (Returns EmptyString)
       (Throws (mkError "Unexpected end of JSON input"))).

Definition sample_params : Params :=
  mkParams "gpt-4" [mkMessage "user" "Hello"] 100 0.2%float
    "LLM_Default" "SHORT" "Short text" None.

(** A network that answers the classifier with the task [LLM_Analysis],
    surrounded by white space. *)
Definition classifying_network (request : Request) : FetchOutcome :=
  FetchResolves
    (mkResponse 200 (Returns "{}")
       (Returns
          (JObject
             [("choices",
               JArray
                 [JObject
                    [("message",
                      JObject
                        [("role", JString "assistant");
                         ("content", JString " LLM_Analysis ")])]])]))).

(** A network that answers the classifier with status 200 and a content of
    white space only. *)
Definition blank_network (request : Request) : FetchOutcome :=
  FetchResolves
    (mkResponse 200 (Returns "{}")
       (Returns
          (JObject
             [("choices",
               JArray
                 [JObject
                    [("message",
                      JObject
                        [("role", JString "assistant");
                         ("content", JString "  ")])]])]))).

(** A [ToNumber] for the samples; none of them reaches it. *)
Definition sample_ToNumber (v : Json) : float := nan.

(** A configuration for a custom model. *)
Definition sample_config : ModelConfig :=
  mkModelConfig "groq" "Gemma 7B" 8192 0.00007%float "fast" "good"
    ["short"] ["chat"] (mkContextConfig 2 2000 "minimal").

(** A prompt manager for the samples. *)
Definition sample_promptManager : AIOrchestrator.PromptManager :=
  AIOrchestrator.mkPromptManager
    (fun task complexity => 1500)
    (fun task complexity contextLength => 0.3%float)
    (fun task maxTokens complexity => "You are a helpful assistant.").

Definition sample_orchestrator : AIOrchestrator.t :=
  AIOrchestrator.mk (ModelManager.new "QUALITY_OPTIMIZED")
    sample_promptManager LLMClient.new.

Definition sample_history : option ChatHistory :=
  Some (mkChatHistory
          (Some [mkTurn "What is the capital of France?"
                   (Some "The capital of France is Paris.")])).

(** A custom task. *)
Definition sample_task : TaskConfig :=
  mkTaskConfig "Poetry" "Write verse" ["poem"; "haiku"] 800 0.9%float.

(** ** Properties *)
(** *** models.js *)

Section ModelProperties.

Ltac table_cases H :=
  apply elem_of_list_to_map_2 in H;
  repeat (apply elem_of_cons in H; destruct H as [H|H];
          [inversion H; subst; clear H|]);
  try (apply elem_of_nil in H; destruct H).

Lemma COST_OPTIMIZED_ok : table_ok COST_OPTIMIZED.
Proof. intros c m H. table_cases H; split; try reflexivity; by eexists. Qed.

Lemma QUALITY_OPTIMIZED_ok : table_ok QUALITY_OPTIMIZED.
Proof. intros c m H. table_cases H; split; try reflexivity; by eexists. Qed.

Lemma SPEED_OPTIMIZED_ok : table_ok SPEED_OPTIMIZED.
Proof. intros c m H. table_cases H; split; try reflexivity; by eexists. Qed.

Lemma BALANCED_ok : table_ok BALANCED.
Proof. intros c m H. table_cases H; split; try reflexivity; by eexists. Qed.

Lemma manager_table_ok (strategy : string) :
  strategy ∉ inheritedNames ->
  table_ok (ModelManager.models (ModelManager.new strategy))
  /\ is_Some (ModelManager.models (ModelManager.new strategy) !! "SHORT").
Proof.
  intros _. unfold ModelManager.new; simpl.
  destruct (MODEL_SELECTION_STRATEGIES !! strategy) as [table|] eqn:E.
  - table_cases E; split;
      auto using COST_OPTIMIZED_ok, QUALITY_OPTIMIZED_ok,
                 SPEED_OPTIMIZED_ok, BALANCED_ok; by eexists.
  - split; [apply BALANCED_ok | by eexists].
Qed.

(** Whatever the strategy name and the complexity name, also unknown ones
    (the names a table inherits from [Object.prototype] apart), the manager
    answers with a registered model. *)
Lemma getModelForComplexity_registered (strategy complexity : string) :
  strategy ∉ inheritedNames ->
  complexity ∉ inheritedNames ->
  exists modelId,
    ModelManager.getModelForComplexity
      (ModelManager.new strategy) complexity = Some modelId
    /\ is_Some (MODEL_REGISTRY !! modelId).
Proof.
  intros Hstrategy _.
  destruct (manager_table_ok strategy Hstrategy) as [Hok [short Hshort]].
  unfold ModelManager.getModelForComplexity.
  destruct (ModelManager.models (ModelManager.new strategy) !! complexity)
    as [m|] eqn:E; unfold js_or_string.
  - destruct (Hok _ _ E) as [Ht Hr]. rewrite Ht. eauto.
  - rewrite Hshort. destruct (Hok _ _ Hshort). eauto.
Qed.

(** C8: for each of the four supported strategies and each of the four
    complexity buckets, [getModelForComplexity] returns a model identifier
    that is a key of [MODEL_REGISTRY]. *)
Theorem resolve_in_registry (strategy complexity : string) :
  strategy ∈ SUPPORTED_STRATEGIES ->
  complexity ∈ COMPLEXITY_BUCKETS ->
  exists modelId,
    ModelManager.getModelForComplexity
      (ModelManager.new strategy) complexity = Some modelId
    /\ MODEL_SELECTION_STRATEGIES !! strategy
       = Some (ModelManager.models (ModelManager.new strategy))
    /\ ModelManager.models (ModelManager.new strategy) !! complexity
       = Some modelId
    /\ modelId ∈ dom MODEL_REGISTRY.
Proof.
  intros Hs Hc.
  unfold SUPPORTED_STRATEGIES in Hs. unfold COMPLEXITY_BUCKETS in Hc.
  repeat (apply elem_of_cons in Hs; destruct Hs as [->|Hs]);
    try (apply elem_of_nil in Hs; destruct Hs);
    repeat (apply elem_of_cons in Hc; destruct Hc as [->|Hc]);
    try (apply elem_of_nil in Hc; destruct Hc);
    (eexists; split; [reflexivity|];
     split; [reflexivity|]; split; [reflexivity|];
     apply elem_of_dom; by eexists).
Qed.

Lemma resolve_in_registry_witness :
  exists modelId,
    ModelManager.getModelForComplexity
      (ModelManager.new "QUALITY_OPTIMIZED") "VERY_LONG" = Some modelId
    /\ MODEL_SELECTION_STRATEGIES !! "QUALITY_OPTIMIZED"
       = Some (ModelManager.models (ModelManager.new "QUALITY_OPTIMIZED"))
    /\ ModelManager.models (ModelManager.new "QUALITY_OPTIMIZED")
         !! "VERY_LONG" = Some modelId
    /\ modelId ∈ dom MODEL_REGISTRY.
Proof.
  apply (resolve_in_registry "QUALITY_OPTIMIZED" "VERY_LONG");
    unfold SUPPORTED_STRATEGIES, COMPLEXITY_BUCKETS; set_solver.
Defined.

(** Outside the inherited names, the read of the registry is the read of an
    own property: [getModelConfigValue] is [getModelConfig]. *)
Lemma getModelConfigValue_own (registry : gmap string ModelConfig)
    (modelId : string) :
  modelId ∉ inheritedNames ->
  ModelManager.getModelConfigValue registry modelId
  = option_map ModelManager.Registered
      (ModelManager.getModelConfig registry modelId).
Proof.
  intros Hown.
  unfold ModelManager.getModelConfigValue, ModelManager.getModelConfig.
  destruct (registry !! modelId); [reflexivity|].
  by rewrite bool_decide_eq_false_2.
Qed.





End ModelProperties.

(** *** Strings *)

Section StringFacts.

Lemma append_nil (b : string) : EmptyString +:+ b = b.
Proof. reflexivity. Qed.

Lemma append_cons (c : ascii) (a b : string) :
  String c a +:+ b = String c (a +:+ b).
Proof. reflexivity. Qed.

Ltac push_append := rewrite ?append_cons, ?append_nil in *.

Lemma append_assoc (a b c : string) : (a +:+ b) +:+ c = a +:+ b +:+ c.
Proof. induction a as [|x a IH]; push_append; [reflexivity | by rewrite IH]. Qed.

Lemma length_append (a b : string) :
  JsString.length (a +:+ b) = JsString.length a + JsString.length b.
Proof.
  unfold JsString.length.
  induction a as [|x a IH]; push_append; simpl String.length; lia.
Qed.

Lemma length_nonneg (s : string) : 0 <= JsString.length s.
Proof. unfold JsString.length. lia. Qed.

Lemma startsWith_iff (s p : string) :
  JsString.startsWith s p = true <-> exists after, s = p +:+ after.
Proof.
  revert s. induction p as [|c p IH]; intros s; simpl.
  - split; [intros _; exists s; reflexivity | done].
  - destruct s as [|d s].
    + split; [done | intros [after H]; discriminate H].
    + destruct (Ascii.eqb c d) eqn:E.
      * apply Ascii.eqb_eq in E as ->. rewrite IH.
        split; intros [after H]; exists after; push_append;
          [by rewrite H | by injection H].
      * split; [done|]. intros [after H]. push_append.
        injection H as -> _. by rewrite Ascii.eqb_refl in E.
Qed.

Lemma includes_iff (s p : string) :
  JsString.includes s p = true <-> occurs_in p s.
Proof.
  unfold occurs_in. induction s as [|d s IH]; simpl JsString.includes.
  - rewrite orb_false_r, startsWith_iff. split.
    + intros [after H]. by exists EmptyString, after.
    + intros [[|x before] [after H]]; push_append;
        [by exists after | discriminate H].
  - rewrite orb_true_iff, startsWith_iff, IH. split.
    + intros [[after H] | (before & after & H)].
      * by exists EmptyString, after.
      * exists (String d before), after. push_append. by rewrite H.
    + intros ([|x before] & after & H); push_append.
      * left. by exists after.
      * right. injection H as _ H. by exists before, after.
Qed.

Lemma includes_false_iff (s p : string) :
  JsString.includes s p = false <-> ~ occurs_in p s.
Proof. rewrite <- includes_iff. by destruct (JsString.includes s p). Qed.

Lemma toLowerCase_append (a b : string) :
  JsString.toLowerCase (a +:+ b)
  = JsString.toLowerCase a +:+ JsString.toLowerCase b.
Proof.
  induction a as [|x a IH]; push_append; simpl; push_append;
    [reflexivity | by rewrite IH].
Qed.

Lemma truthy_length (s : string) :
  JsString.truthy s = true <-> 0 < JsString.length s.
Proof. unfold JsString.length. destruct s; simpl; split; (done || lia). Qed.

(** Trimming removes characters at the two ends only. *)
Lemma trimStart_suffix (s : string) :
  exists before, s = before +:+ JsString.trimStart s.
Proof.
  induction s as [|c s [before IH]]; simpl.
  - by exists EmptyString.
  - destruct (JsString.isWhiteSpace c).
    + exists (String c before). push_append. by rewrite <- IH.
    + by exists EmptyString.
Qed.

Lemma trimEnd_prefix (s : string) :
  exists after, s = JsString.trimEnd s +:+ after.
Proof.
  induction s as [|c s [after IH]]; simpl.
  - by exists EmptyString.
  - destruct (JsString.trimEnd s) eqn:E.
    + destruct (JsString.isWhiteSpace c).
      * by exists (String c s).
      * exists s. reflexivity.
    + exists after. push_append. by rewrite <- IH.
Qed.

Lemma occurs_in_trim (p s : string) :
  occurs_in p (JsString.trim s) -> occurs_in p s.
Proof.
  intros (before & after & H). unfold JsString.trim in H.
  destruct (trimStart_suffix s) as [b Hb].
  destruct (trimEnd_prefix (JsString.trimStart s)) as [a Ha].
  exists (b +:+ before), (after +:+ a).
  rewrite Hb at 1. rewrite Ha at 1. rewrite H.
  by rewrite !append_assoc.
Qed.

End StringFacts.

(** *** llmClient.js: the provider of a model *)

Section ProviderProperties.

(** C6, as stated, fails: an identifier that contains "gpt" is not always
    mapped to openai, since "llama" and "mixtral" are looked for first. *)
Lemma gpt_not_always_openai :
  ~ (forall model,
        occurs_in "gpt" model ->
        LLMClient.getProviderFromModel model = "openai").
Proof.
  intros H. specialize (H "gpt-llama").
  assert (occurs_in "gpt" "gpt-llama") as Hocc
    by (by exists EmptyString, "-llama").
  apply H in Hocc. discriminate Hocc.
Qed.

(** C6, amended: [getProviderFromModel] answers by the first rule that
    applies: groq when the identifier contains "llama" or "mixtral";
    otherwise openai when it contains "gpt"; otherwise anthropic when it
    contains "claude"; otherwise groq.  "gpt-4" maps to openai,
    "claude-3-sonnet" to anthropic and "llama3-8b-8192" to groq. *)
Theorem getProviderFromModel_first_rule (model : string) :
  (occurs_in "llama" model \/ occurs_in "mixtral" model ->
   LLMClient.getProviderFromModel model = "groq")
  /\ (~ occurs_in "llama" model -> ~ occurs_in "mixtral" model ->
      occurs_in "gpt" model ->
      LLMClient.getProviderFromModel model = "openai")
  /\ (~ occurs_in "llama" model -> ~ occurs_in "mixtral" model ->
      ~ occurs_in "gpt" model -> occurs_in "claude" model ->
      LLMClient.getProviderFromModel model = "anthropic")
  /\ (~ occurs_in "llama" model -> ~ occurs_in "mixtral" model ->
      ~ occurs_in "gpt" model -> ~ occurs_in "claude" model ->
      LLMClient.getProviderFromModel model = "groq")
  /\ LLMClient.getProviderFromModel "gpt-4" = "openai"
  /\ LLMClient.getProviderFromModel "claude-3-sonnet" = "anthropic"
  /\ LLMClient.getProviderFromModel "llama3-8b-8192" = "groq".
Proof.
  unfold LLMClient.getProviderFromModel.
  split; [|split; [|split; [|split; [|by repeat split]]]].
  - intros [H|H]; apply includes_iff in H; rewrite H;
      [reflexivity | by rewrite orb_true_r].
  - intros H1 H2 H3.
    apply includes_false_iff in H1, H2. apply includes_iff in H3.
    by rewrite H1, H2, H3.
  - intros H1 H2 H3 H4.
    apply includes_false_iff in H1, H2, H3. apply includes_iff in H4.
    by rewrite H1, H2, H3, H4.
  - intros H1 H2 H3 H4.
    apply includes_false_iff in H1, H2, H3, H4.
    by rewrite H1, H2, H3, H4.
Qed.

Lemma getProviderFromModel_first_rule_witness :
  LLMClient.getProviderFromModel "mixtral-gpt" = "groq"
  /\ LLMClient.getProviderFromModel "gpt-4o" = "openai".
Proof.
  split.
  - destruct (getProviderFromModel_first_rule "mixtral-gpt") as [H _].
    apply H. right. by exists EmptyString, "-gpt".
  - destruct (getProviderFromModel_first_rule "gpt-4o") as (_ & H & _).
    apply H.
    + apply includes_false_iff. reflexivity.
    + apply includes_false_iff. reflexivity.
    + by exists EmptyString, "-4o".
Defined.

End ProviderProperties.

(** *** taskClassifier.js: text complexity *)

Section ComplexityProperties.

Lemma hasAnalyticalContent_iff (text : string) :
  TextComplexityAnalyzer.hasAnalyticalContent text = true
  <-> containsAnalyticalKeyword text.
Proof.
  unfold TextComplexityAnalyzer.hasAnalyticalContent,
    containsAnalyticalKeyword.
  rewrite existsb_exists. split.
  - intros (keyword & Hin & Hinc). exists keyword. split.
    + by apply list_elem_of_In.
    + by apply includes_iff.
  - intros (keyword & Hin & Hocc). exists keyword. split.
    + by apply list_elem_of_In.
    + by apply includes_iff.
Qed.

(** The complexity [analyze] returns: the bucket of the length, with SHORT
    raised to MEDIUM when an analytical keyword is found. *)
Lemma analyze_complexity (text : string) :
  analysis_complexity (TextComplexityAnalyzer.analyze text)
  = match lengthBucket (JsString.length text) with
    | SHORT =>
        if TextComplexityAnalyzer.hasAnalyticalContent text
        then MEDIUM else SHORT
    | bucket => bucket
    end.
Proof.
  unfold TextComplexityAnalyzer.analyze, lengthBucket,
    TEXT_LENGTH_THRESHOLDS_SHORT, TEXT_LENGTH_THRESHOLDS_MEDIUM,
    TEXT_LENGTH_THRESHOLDS_LONG.
  destruct text as [|c text]; [reflexivity|].
  cbn [JsString.truthy negb].
  set (len := JsString.length (String c text)).
  destruct (len <=? 100); [|destruct (len <=? 500); [|destruct (len <=? 1000)]];
    cbn [analysis_complexity];
    try (rewrite andb_false_r; reflexivity).
  rewrite andb_true_r. reflexivity.
Qed.

Lemma analyticalKeyword_facts (keyword : string) :
  keyword ∈ TextComplexityAnalyzer.analyticalKeywords ->
  JsString.toLowerCase keyword = keyword
  /\ 0 < JsString.length keyword <= 9.
Proof.
  unfold TextComplexityAnalyzer.analyticalKeywords. intros H.
  repeat (apply elem_of_cons in H; destruct H as [->|H];
          [split; [reflexivity | vm_compute; split; reflexivity || discriminate]|]).
  by apply elem_of_nil in H.
Qed.

(** C2: [analyze] gives SHORT up to 100 characters, MEDIUM up to 500, LONG
    up to 1000 and VERY_LONG above, except that a text of the SHORT bucket
    whose lower-cased form contains an analytical keyword gets MEDIUM; so a
    text of at most 100 characters without analytical keyword is SHORT, and
    is MEDIUM once such a keyword is inserted anywhere in it. *)
Theorem analyze_complexity_spec (text : string) :
  let result := analysis_complexity (TextComplexityAnalyzer.analyze text) in
  let length := JsString.length text in
  (length <= 100 -> ~ containsAnalyticalKeyword text -> result = SHORT)
  /\ (length <= 100 -> containsAnalyticalKeyword text -> result = MEDIUM)
  /\ ((100 < length <= 500) -> result = MEDIUM)
  /\ ((500 < length <= 1000) -> result = LONG)
  /\ (1000 < length -> result = VERY_LONG)
  /\ (forall before after keyword,
         text = before +:+ after ->
         length <= 100 ->
         ~ containsAnalyticalKeyword text ->
         keyword ∈ TextComplexityAnalyzer.analyticalKeywords ->
         result = SHORT
         /\ analysis_complexity
              (TextComplexityAnalyzer.analyze (before +:+ keyword +:+ after))
            = MEDIUM).
Proof.
  assert (forall t, JsString.length t <= 100 ->
            ~ containsAnalyticalKeyword t ->
            analysis_complexity (TextComplexityAnalyzer.analyze t) = SHORT)
    as Hshort.
  { intros t Hlen Hno. rewrite analyze_complexity. unfold lengthBucket.
    apply Z.leb_le in Hlen. rewrite Hlen.
    destruct (TextComplexityAnalyzer.hasAnalyticalContent t) eqn:E;
      [|reflexivity].
    by apply hasAnalyticalContent_iff in E. }
  assert (forall t, JsString.length t <= 500 ->
            containsAnalyticalKeyword t ->
            analysis_complexity (TextComplexityAnalyzer.analyze t) = MEDIUM)
    as Hupgraded.
  { intros t Hlen Hkw. rewrite analyze_complexity. unfold lengthBucket.
    apply hasAnalyticalContent_iff in Hkw. rewrite Hkw.
    destruct (JsString.length t <=? 100) eqn:E; [reflexivity|].
    apply Z.leb_le in Hlen. by rewrite Hlen. }
  intros result length. subst result length.
  split; [|split; [|split; [|split; [|split]]]].
  - apply Hshort.
  - intros Hlen. apply Hupgraded. lia.
  - intros [Hlo Hhi]. rewrite analyze_complexity. unfold lengthBucket.
    apply Z.leb_gt in Hlo. apply Z.leb_le in Hhi. by rewrite Hlo, Hhi.
  - intros [Hlo Hhi]. rewrite analyze_complexity. unfold lengthBucket.
    assert ((JsString.length text <=? 100) = false) as -> by (apply Z.leb_gt; lia).
    apply Z.leb_gt in Hlo. apply Z.leb_le in Hhi. by rewrite Hlo, Hhi.
  - intros Hlo. rewrite analyze_complexity. unfold lengthBucket.
    assert ((JsString.length text <=? 100) = false) as -> by (apply Z.leb_gt; lia).
    assert ((JsString.length text <=? 500) = false) as -> by (apply Z.leb_gt; lia).
    apply Z.leb_gt in Hlo. by rewrite Hlo.
  - intros before after keyword -> Hlen Hno Hin. split; [by apply Hshort|].
    destruct (analyticalKeyword_facts keyword Hin) as [Hlower Hklen].
    apply Hupgraded.
    + rewrite length_append in Hlen. rewrite !length_append. lia.
    + exists keyword. split; [assumption|].
      exists (JsString.toLowerCase before), (JsString.toLowerCase after).
      by rewrite !toLowerCase_append, Hlower.
Qed.

Lemma analyze_complexity_spec_witness :
  analysis_complexity (TextComplexityAnalyzer.analyze "What is a cat?")
  = SHORT
  /\ analysis_complexity
       (TextComplexityAnalyzer.analyze ("What is " +:+ "explain" +:+ "a cat?"))
     = MEDIUM.
Proof.
  destruct (analyze_complexity_spec "What is a cat?") as (_ & _ & _ & _ & _ & H).
  apply (H "What is " "a cat?" "explain").
  - reflexivity.
  - vm_compute. discriminate.
  - intros Hkw. apply hasAnalyticalContent_iff in Hkw. vm_compute in Hkw.
    discriminate Hkw.
  - apply list_elem_of_In. simpl. tauto.
Defined.

End ComplexityProperties.

(** *** contextManager.js: selection *)

Section SelectionProperties.
Context {A : Type}.
Variable undefined : A.

Lemma slice_from_last (messages : list A) (n : Z) :
  0 < n <= Z.of_nat (length messages) ->
  slice_from (- n) messages = last_n n messages
  /\ Z.of_nat (length (slice_from (- n) messages)) = n.
Proof.
  intros Hn. unfold slice_from, last_n.
  assert ((- n <? 0) = true) as -> by (apply Z.ltb_lt; lia).
  replace (Z.to_nat (Z.max (Z.of_nat (length messages) + - n) 0))
    with (length messages - Z.to_nat n)%nat by lia.
  split; [reflexivity|]. rewrite length_drop. lia.
Qed.

(** From a limit of three on, each strategy keeps to the limit on a list
    that is longer than the limit: the last [n]; the first and the last
    [n - 1]; the first, the middle and the last [n - 2]; the last two. *)
Lemma selection_within_limit (first : A) (rest : list A) (n : Z) :
  let messages := first :: rest in
  3 <= n < Z.of_nat (length messages) ->
  ContextManager.selectRecentMessages messages n = last_n n messages
  /\ ContextManager.selectSmartMessages undefined messages n
     = first :: last_n (n - 1) messages
  /\ ContextManager.selectComprehensiveMessages undefined messages n
     = first :: at_index undefined messages (Z.of_nat (length messages) / 2)
       :: last_n (n - 2) messages
  /\ ContextManager.selectMinimalMessages messages n = last_n 2 messages
  /\ Z.of_nat (length (ContextManager.selectRecentMessages messages n)) = n
  /\ Z.of_nat (length (ContextManager.selectSmartMessages undefined messages n))
     = n
  /\ Z.of_nat
       (length (ContextManager.selectComprehensiveMessages undefined messages n))
     = n
  /\ Z.of_nat (length (ContextManager.selectMinimalMessages messages n)) = 2.
Proof.
  intros messages Hn.
  unfold ContextManager.selectRecentMessages,
    ContextManager.selectSmartMessages,
    ContextManager.selectComprehensiveMessages,
    ContextManager.selectMinimalMessages.
  assert ((Z.of_nat (length messages) <=? n) = false) as ->
    by (apply Z.leb_gt; lia).
  replace (- n + 1) with (- (n - 1)) by lia.
  replace (- n + 2) with (- (n - 2)) by lia.
  replace (Z.min n 2) with 2 by lia.
  destruct (slice_from_last messages n) as [E0 L0]; [lia|].
  destruct (slice_from_last messages (n - 1)) as [E1 L1]; [lia|].
  destruct (slice_from_last messages (n - 2)) as [E2 L2]; [lia|].
  destruct (slice_from_last messages 2) as [E3 L3]; [lia|].
  rewrite E0, E1, E2, E3 in *.
  repeat split; try assumption; try reflexivity.
  - rewrite length_cons. lia.
  - rewrite !length_cons. lia.
Qed.

(** C3 fails below a limit of three.  With a limit of 1 the smart strategy
    returns the first message and then the whole list, three messages for a
    list of two, also through [selectContextMessages] for the registered
    model whose strategy is smart; with a limit of 2 the comprehensive
    strategy returns five messages for a list of three; with a limit of 0
    the recent and the minimal strategies return the whole list. *)
Theorem selection_exceeds_small_limit (a b c : A) :
  ContextManager.selectSmartMessages undefined [a; b] 1 = [a; a; b]
  /\ ~ (Z.of_nat (length (ContextManager.selectSmartMessages undefined [a; b] 1))
        <= 1)
  /\ ContextManager.selectContextMessages undefined MODEL_REGISTRY [a; b]
       "llama3-70b-8192" 1 = Some [a; a; b]
  /\ ContextManager.selectComprehensiveMessages undefined [a; b; c] 2
     = [a; b; a; b; c]
  /\ ContextManager.selectRecentMessages [a; b] 0 = [a; b]
  /\ ContextManager.selectMinimalMessages [a; b] 0 = [a; b].
Proof.
  split; [reflexivity|]. split; [simpl; lia|]. repeat split; reflexivity.
Qed.

End SelectionProperties.

(** *** contextManager.js: the token budget *)

Section BudgetProperties.

Lemma fold_tokens_shift (l : list Message) (a : Z) :
  fold_left
    (fun sum msg => sum + ContextManager.estimateTokenCount (content msg)) l a
  = a + ContextManager.totalTokensOf l.
Proof.
  unfold ContextManager.totalTokensOf. revert a.
  induction l as [|m l IH]; intros a; cbn [fold_left]; [lia|].
  rewrite (IH (a + _)), (IH (0 + _)). lia.
Qed.

Lemma totalTokensOf_cons (m : Message) (l : list Message) :
  ContextManager.totalTokensOf (m :: l)
  = ContextManager.estimateTokenCount (content m)
    + ContextManager.totalTokensOf l.
Proof.
  unfold ContextManager.totalTokensOf at 1. cbn [fold_left].
  apply fold_tokens_shift.
Qed.

Lemma length_take (n : nat) (s : string) :
  JsString.length (JsString.take n s)
  = Z.min (Z.of_nat n) (JsString.length s).
Proof.
  unfold JsString.length. revert s.
  induction n as [|n IH]; intros [|c s]; simpl; try lia.
  specialize (IH s). lia.
Qed.

(** The truncated text has [maxChars + 3] characters, one token more than
    fits, whenever the message did not fit in [remainingTokens]. *)
Lemma truncated_tokens (text : string) (remainingTokens : Z) :
  0 <= remainingTokens ->
  remainingTokens < ContextManager.estimateTokenCount text ->
  ContextManager.estimateTokenCount
    (JsString.substring0 (remainingTokens * 4) text +:+ "...")
  = remainingTokens + 1.
Proof.
  unfold ContextManager.estimateTokenCount, ceil_div4, JsString.substring0.
  intros H0 Hfit. rewrite length_append, length_take.
  change (JsString.length "...") with 3.
  pose proof (length_nonneg text).
  Z.to_euclidean_division_equations. lia.
Qed.

(** One step of the loop that truncates ends one token above the budget. *)
Lemma truncation_overshoots (maxContextTokens totalTokens : Z)
    (message : Message) (earlier optimizedMessages : list Message) :
  totalTokens = ContextManager.totalTokensOf optimizedMessages ->
  maxContextTokens
  < totalTokens + ContextManager.estimateTokenCount (content message) ->
  100 < (maxContextTokens - totalTokens) * 4 ->
  ContextManager.totalTokensOf
    (ContextManager.optimizeLoop maxContextTokens (message :: earlier)
       totalTokens optimizedMessages)
  = maxContextTokens + 1.
Proof.
  intros Htotal Hover Hroom. simpl.
  assert ((totalTokens + ContextManager.estimateTokenCount (content message)
           <=? maxContextTokens) = false) as -> by (apply Z.leb_gt; lia).
  assert ((100 <? (maxContextTokens - totalTokens) * 4) = true) as ->
    by (apply Z.ltb_lt; lia).
  rewrite totalTokensOf_cons. simpl content.
  rewrite truncated_tokens; lia.
Qed.

(** The loop never ends more than one token above the budget. *)
Lemma optimizeLoop_bound (maxContextTokens : Z) (pending : list Message) :
  forall totalTokens optimizedMessages,
    totalTokens = ContextManager.totalTokensOf optimizedMessages ->
    ContextManager.totalTokensOf
      (ContextManager.optimizeLoop maxContextTokens pending totalTokens
         optimizedMessages)
    <= Z.max totalTokens (maxContextTokens + 1).
Proof.
  induction pending as [|message earlier IH]; intros total acc Htotal.
  - simpl. lia.
  - cbn [ContextManager.optimizeLoop].
    destruct (total + ContextManager.estimateTokenCount (content message)
              <=? maxContextTokens) eqn:Efit.
    + apply Z.leb_le in Efit.
      etransitivity; [apply IH|lia].
      rewrite totalTokensOf_cons. lia.
    + apply Z.leb_gt in Efit.
      destruct (100 <? (maxContextTokens - total) * 4) eqn:Eroom.
      * apply Z.ltb_lt in Eroom.
        rewrite totalTokensOf_cons. simpl content.
        rewrite truncated_tokens; lia.
      * lia.
Qed.

Lemma optimizeContext_bound (registry : gmap string ModelConfig)
    (contextMessages : list Message) (model : string) (maxTokens : Z) :
  ContextManager.totalTokensOf
    (ContextManager.optimizeContext registry contextMessages model maxTokens)
  <= Z.max 0 (ContextManager.maxContextTokensOf maxTokens + 1).
Proof.
  unfold ContextManager.optimizeContext. by apply optimizeLoop_bound.
Qed.

(** C1 fails on the truncating branch.  With a budget of 100 tokens, of
    which 70% is 70, a single message of 300 characters comes back cut to
    280 characters plus the ellipsis: 283 characters, 71 estimated tokens,
    more than 70% of 100. *)
Theorem optimizeContext_truncation_exceeds :
  let contextMessages := [mkMessage "user" (repeat_string "x" 300)] in
  let optimized :=
    ContextManager.optimizeContext MODEL_REGISTRY contextMessages
      "llama3-8b-8192" 100 in
  ContextManager.maxContextTokensOf 100 = 70
  /\ optimized = [mkMessage "user" (repeat_string "x" 280 +:+ "...")]
  /\ ContextManager.totalTokensOf optimized = 71
  /\ ~ (10 * ContextManager.totalTokensOf optimized <= 7 * 100).
Proof.
  vm_compute. repeat split; try reflexivity. intros H. apply H. reflexivity.
Qed.

End BudgetProperties.

(** *** contextManager.js: the chat history *)

Section HistoryProperties.

Lemma processTurns_flat_map (turns : list Turn) (acc : list Message) :
  ContextManager.processTurns turns acc
  = acc ++ flat_map turnMessagesWhenNonEmpty turns.
Proof.
  revert acc. induction turns as [|[u r] turns IH]; intros acc.
  - simpl. by rewrite app_nil_r.
  - cbn [ContextManager.processTurns flat_map user response].
    unfold turnMessagesWhenNonEmpty at 1. cbn [user response].
    destruct r as [text|]; [destruct (JsString.truthy text)|];
      rewrite IH, <- ?app_assoc; reflexivity.
Qed.

(** C7, as stated, fails: a turn whose response is the empty string has a
    response and gets no assistant message. *)
Lemma empty_response_has_no_assistant_message :
  let turns := [mkTurn "a" (Some EmptyString)] in
  ContextManager.processChatHistory (Some (mkChatHistory (Some turns)))
  = [mkMessage "user" "a"]
  /\ flat_map turnMessagesWhenPresent turns
     = [mkMessage "user" "a"; mkMessage "assistant" EmptyString]
  /\ ContextManager.processChatHistory (Some (mkChatHistory (Some turns)))
     <> flat_map turnMessagesWhenPresent turns.
Proof. repeat split; try reflexivity. discriminate. Qed.

(** C7, amended: [processChatHistory] returns, in the order of the turns, a
    user message for each turn's user text, followed by an assistant
    message exactly when the turn's response is a non-empty string; on
    [{messages:[{user:"a",response:"b"},{user:"c"}]}] these are user "a",
    assistant "b", user "c". *)
Theorem processChatHistory_spec :
  (forall turns,
      ContextManager.processChatHistory (Some (mkChatHistory (Some turns)))
      = flat_map turnMessagesWhenNonEmpty turns)
  /\ ContextManager.processChatHistory
       (Some (mkChatHistory
                (Some [mkTurn "a" (Some "b"); mkTurn "c" None])))
     = [mkMessage "user" "a"; mkMessage "assistant" "b"; mkMessage "user" "c"].
Proof.
  split; [|reflexivity].
  intros turns. unfold ContextManager.processChatHistory. simpl.
  apply processTurns_flat_map.
Qed.

End HistoryProperties.

(** *** llmClient.js: the envelopes of [callLLM] *)

Section ClientProperties.
Variable net : Request -> FetchOutcome.

Lemma withMetadata_success (params : Params) (success : bool)
    (base : gmap string Json) :
  LLMClient.withMetadata params success base !! "success"
  = Some (JBool success).
Proof. unfold LLMClient.withMetadata. by simplify_map_eq. Qed.

Lemma withMetadata_carries (params : Params) (success : bool)
    (base : gmap string Json) :
  carriesMetadata params (LLMClient.withMetadata params success base).
Proof.
  unfold carriesMetadata, LLMClient.withMetadata.
  repeat split; by simplify_map_eq.
Qed.

Lemma withMetadata_other (params : Params) (success : bool)
    (base : gmap string Json) (key : string) :
  key ∉ metadataKeys ->
  LLMClient.withMetadata params success base !! key = base !! key.
Proof.
  unfold metadataKeys, LLMClient.withMetadata. intros Hkey.
  rewrite !lookup_insert_ne; [reflexivity|..];
    intros <-; apply Hkey; apply list_elem_of_In; simpl; tauto.
Qed.

Lemma lookup_list_to_map_fields (fields : list (string * Json))
    (key : string) :
  (list_to_map fields : gmap string Json) !! key = lookup_field key fields.
Proof.
  induction fields as [|[k v] fields IH]; simpl; [apply lookup_empty|].
  destruct (String.eqb k key) eqn:E.
  - apply String.eqb_eq in E as ->. apply lookup_insert_eq.
  - apply String.eqb_neq in E. by rewrite lookup_insert_ne.
Qed.

Lemma createErrorResponse_envelope (error details : string)
    (params : Params) :
  isErrorEnvelope params details
    (LLMClient.createErrorResponse error details params).
Proof.
  unfold isErrorEnvelope, LLMClient.createErrorResponse.
  split; [apply withMetadata_success|].
  split; [|split; [exists error|apply withMetadata_carries]].
  - rewrite withMetadata_other; [by simplify_map_eq|].
    unfold metadataKeys. intros H. apply list_elem_of_In in H. simpl in H.
    intuition discriminate.
  - rewrite withMetadata_other; [by simplify_map_eq|].
    unfold metadataKeys. intros H. apply list_elem_of_In in H. simpl in H.
    intuition discriminate.
Qed.

Lemma createSuccessResponse_envelope (result : Json) (params : Params) :
  isSuccessEnvelope params result
    (LLMClient.createSuccessResponse result params).
Proof.
  unfold isSuccessEnvelope, LLMClient.createSuccessResponse.
  split; [apply withMetadata_success|].
  split; [apply withMetadata_carries|].
  intros key Hkey. rewrite withMetadata_other by assumption.
  apply lookup_list_to_map_fields.
Qed.

(** What [callLLM] evaluates to, by the outcome of the request. *)
Lemma callLLM_outcome (this : LLMClient.t) (params : Params)
    (log : list Request) :
  LLMClient.callLLM net this params log
  = (Returns
       match net (LLMClient.requestOf this params) with
       | FetchRejects e =>
           LLMClient.createErrorResponse "LLM call error" (message e) params
       | FetchResolves r =>
           if ok r then
             match json r with
             | Returns result => LLMClient.createSuccessResponse result params
             | Throws e =>
                 LLMClient.createErrorResponse "LLM call error" (message e)
                   params
             end
           else
             match text r with
             | Returns errorText =>
                 LLMClient.createErrorResponse "LLM call failed" errorText
                   params
             | Throws e =>
                 LLMClient.createErrorResponse "LLM call error" (message e)
                   params
             end
       end,
     log ++ [LLMClient.requestOf this params]).
Proof.
  unfold LLMClient.callLLM, try_catch, bind, fetch, await, ret.
  destruct (net (LLMClient.requestOf this params)) as [e|r]; [reflexivity|].
  destruct (ok r); simpl.
  - by destruct (json r).
  - by destruct (text r).
Qed.

(** C4, amended: [callLLM] always returns an envelope and never throws,
    having sent one request.  When the transport throws, the envelope is an
    error envelope with the message of the exception; when the response is
    not 2xx, it is an error envelope with the text of the response; when
    the response is 2xx and its body cannot be read as JSON, it is an error
    envelope with the message of that exception; when the response is 2xx
    with a JSON payload, it is a success envelope that merges the payload
    with the request metadata.  Every envelope carries the request
    metadata. *)
Theorem callLLM_never_throws (this : LLMClient.t) (params : Params)
    (log : list Request) :
  let request := LLMClient.requestOf this params in
  (exists envelope,
      LLMClient.callLLM net this params log
      = (Returns envelope, log ++ [request])
      /\ carriesMetadata params envelope
      /\ exists success, envelope !! "success" = Some (JBool success))
  /\ (forall e,
         net request = FetchRejects e ->
         exists envelope,
           LLMClient.callLLM net this params log
           = (Returns envelope, log ++ [request])
           /\ isErrorEnvelope params (message e) envelope)
  /\ (forall r,
         net request = FetchResolves r -> ok r = false ->
         exists envelope,
           LLMClient.callLLM net this params log
           = (Returns envelope, log ++ [request])
           /\ isErrorEnvelope params (errorTextOf (text r)) envelope)
  /\ (forall r result,
         net request = FetchResolves r -> ok r = true ->
         json r = Returns result ->
         exists envelope,
           LLMClient.callLLM net this params log
           = (Returns envelope, log ++ [request])
           /\ isSuccessEnvelope params result envelope)
  /\ (forall r e,
         net request = FetchResolves r -> ok r = true ->
         json r = Throws e ->
         exists envelope,
           LLMClient.callLLM net this params log
           = (Returns envelope, log ++ [request])
           /\ isErrorEnvelope params (message e) envelope).
Proof.
  intros request. subst request.
  split; [|split; [|split; [|split]]].
  - eexists. split; [apply callLLM_outcome|].
    destruct (net (LLMClient.requestOf this params)) as [e|r];
      [|destruct (ok r); [destruct (json r)|destruct (text r)]];
      (split; [apply withMetadata_carries|]);
      eexists; apply withMetadata_success.
  - intros e He. eexists. split; [apply callLLM_outcome|].
    rewrite He. apply createErrorResponse_envelope.
  - intros r Hr Hok. eexists. split; [apply callLLM_outcome|].
    rewrite Hr, Hok.
    destruct (text r); apply createErrorResponse_envelope.
  - intros r result Hr Hok Hjson. eexists. split; [apply callLLM_outcome|].
    rewrite Hr, Hok, Hjson. apply createSuccessResponse_envelope.
  - intros r e Hr Hok Hjson. eexists. split; [apply callLLM_outcome|].
    rewrite Hr, Hok, Hjson. apply createErrorResponse_envelope.
Qed.

End ClientProperties.

(** C4, as stated, fails: a response with status 204, which is 2xx, has no
    body to parse, and [callLLM] answers with an error envelope, whose
    [success] is false, not with a success envelope. *)
Lemma success_status_without_json_is_error :
  let request := LLMClient.requestOf LLMClient.new sample_params in
  exists r envelope,
    bodiless_network request = FetchResolves r
    /\ ok r = true
    /\ LLMClient.callLLM bodiless_network LLMClient.new sample_params []
       = (Returns envelope, [request])
    /\ envelope !! "success" = Some (JBool false)
    /\ isErrorEnvelope sample_params "Unexpected end of JSON input" envelope
    /\ forall result, ~ isSuccessEnvelope sample_params result envelope.
Proof.
  intros request. subst request.
  exists (mkResponse 204 (Returns EmptyString)
            (Throws (mkError "Unexpected end of JSON input"))),
         (LLMClient.createErrorResponse "LLM call error"
            "Unexpected end of JSON input" sample_params).
  split; [reflexivity|]. split; [reflexivity|].
  split; [rewrite callLLM_outcome; reflexivity|].
  split; [apply withMetadata_success|].
  split; [apply createErrorResponse_envelope|].
  intros result [Hsuccess _].
  unfold LLMClient.createErrorResponse in Hsuccess.
  rewrite withMetadata_success in Hsuccess. discriminate Hsuccess.
Qed.

Lemma callLLM_never_throws_witness :
  (exists envelope,
      LLMClient.callLLM failing_network LLMClient.new sample_params []
      = (Returns envelope, [LLMClient.requestOf LLMClient.new sample_params])
      /\ isErrorEnvelope sample_params "fetch failed" envelope)
  /\ (exists envelope,
      LLMClient.callLLM refusing_network LLMClient.new sample_params []
      = (Returns envelope, [LLMClient.requestOf LLMClient.new sample_params])
      /\ isErrorEnvelope sample_params "server error" envelope)
  /\ (exists envelope,
      LLMClient.callLLM answering_network LLMClient.new sample_params []
      = (Returns envelope, [LLMClient.requestOf LLMClient.new sample_params])
      /\ isSuccessEnvelope sample_params
           (JObject [("id", JString "r1"); ("success", JBool false)])
           envelope).
Proof.
  split; [|split].
  - destruct (callLLM_never_throws failing_network LLMClient.new
                sample_params []) as (_ & H & _).
    apply (H (mkError "fetch failed")). reflexivity.
  - destruct (callLLM_never_throws refusing_network LLMClient.new
                sample_params []) as (_ & _ & H & _).
    apply (H (mkResponse 500 (Returns "server error")
                (Throws (mkError "Unexpected token")))); reflexivity.
  - destruct (callLLM_never_throws answering_network LLMClient.new
                sample_params []) as (_ & _ & _ & H & _).
    apply (H (mkResponse 200 (Returns "{}")
                (Returns (JObject [("id", JString "r1");
                                   ("success", JBool false)]))));
      reflexivity.
Defined.

(** *** taskClassifier.js: classification *)

Section ClassifierProperties.
Variable ToNumber : Json -> float.
Variable net : Request -> FetchOutcome.

Lemma firstMatchingTask_default (entries : list (string * TaskConfig))
    (query : string) :
  (forall taskType taskConfig keyword,
      (taskType, taskConfig) ∈ entries ->
      taskType <> "LLM_Default" ->
      keyword ∈ keywords taskConfig ->
      ~ occurs_in keyword query) ->
  TaskClassifier.firstMatchingTask entries query = "LLM_Default".
Proof.
  induction entries as [|[taskType taskConfig] entries IH]; intros Hno;
    simpl; [reflexivity|].
  assert (TaskClassifier.firstMatchingTask entries query = "LLM_Default")
    as Hrest.
  { apply IH. intros t c k Hin. apply Hno. by apply list_elem_of_further. }
  destruct (String.eqb taskType "LLM_Default") eqn:E; [assumption|].
  apply String.eqb_neq in E.
  destruct (existsb _ (keywords taskConfig)) eqn:Ex; [|assumption].
  apply existsb_exists in Ex as (keyword & Hin & Hinc).
  apply includes_iff in Hinc. apply list_elem_of_In in Hin.
  exfalso. apply (Hno taskType taskConfig keyword); auto.
  apply list_elem_of_here.
Qed.

(** Without a task keyword in the lower-cased query, the keyword scan
    answers the default task. *)
Lemma determineTaskType_default (taskTypes : list (string * TaskConfig))
    (queryText : string) :
  noTaskKeywordOccurs taskTypes queryText ->
  TaskClassifier.determineTaskType taskTypes queryText = "LLM_Default".
Proof.
  intros Hno. unfold TaskClassifier.determineTaskType.
  apply firstMatchingTask_default. intros t c k Hin Hne Hk Hocc.
  apply (Hno t c k Hin Hne Hk). by apply occurs_in_trim.
Qed.

Lemma readChoice_unusable (choice : option Json) :
  contentOfChoice choice = None ->
  exists e, TaskClassifier.readChoice choice = Throws e.
Proof.
  unfold TaskClassifier.readChoice, contentOfChoice, and_then.
  destruct choice as [[| | | | |choiceFields]|]; simpl; eauto.
  destruct (lookup_field "message" choiceFields)
    as [[| | | | |messageFields]|]; simpl; eauto.
  destruct (lookup_field "content" messageFields) as [[| | |s| |]|];
    simpl; eauto.
  discriminate.
Qed.

(** A response without usable content leaves [task] as it is or throws. *)
Lemma readClassification_unusable (task : string) (r : Response) :
  usableContent ToNumber (json r) = None ->
  TaskClassifier.readClassification ToNumber task r = Returns task
  \/ exists e, TaskClassifier.readClassification ToNumber task r = Throws e.
Proof.
  unfold TaskClassifier.readClassification, usableContent, and_then.
  destruct (json r) as [[| b | f | s | items | fields]|e]; simpl; eauto.
  destruct (lookup_field "choices" fields)
    as [[| b | f | s | items | entries]|]; simpl; eauto.
  - destruct b; simpl; eauto.
  - destruct (negb _); simpl; eauto.
  - destruct (JsString.truthy s); [|by left].
    simpl. destruct (PrimFloat.ltb _ _); [|by left].
    intros _. right. destruct s; simpl; eauto.
  - destruct (PrimFloat.ltb _ _); [|by left].
    destruct items as [|choice items]; simpl.
    + intros _. right. eauto.
    + intros H. right. by apply readChoice_unusable.
  - destruct (greater_than_zero ToNumber (lookup_field "length" entries));
      [|by left].
    intros H. right. by apply readChoice_unusable.
Qed.

(** What [classifyQuery] evaluates to when the keyword scan answers the
    default task. *)
Lemma classifyQuery_default_scan (modelManager : ModelManager.t)
    (taskTypes : list (string * TaskConfig)) (queryText : string)
    (log : list Request) :
  JsString.truthy queryText = true ->
  TaskClassifier.determineTaskType taskTypes queryText = "LLM_Default" ->
  exists task,
    TaskClassifier.classifyQuery ToNumber net modelManager taskTypes
      queryText log
    = (Returns
         (mkClassification task (Some "llama3-8b-8192")
            (analysis_complexity (TextComplexityAnalyzer.analyze queryText))
            (analysis_reason (TextComplexityAnalyzer.analyze queryText))
            (Some (analysis_stats (TextComplexityAnalyzer.analyze queryText)))),
       log ++ [TaskClassifier.classificationRequest queryText])
    /\ task
       = match net (TaskClassifier.classificationRequest queryText) with
         | FetchRejects _ => "LLM_Default"
         | FetchResolves r =>
             if ok r then
               match TaskClassifier.readClassification ToNumber
                       "LLM_Default" r with
               | Returns task => task
               | Throws _ => "LLM_Default"
               end
             else "LLM_Default"
         end.
Proof.
  intros Hq Hscan.
  unfold TaskClassifier.classifyQuery, TaskClassifier.getModelForTask.
  rewrite Hq, Hscan. cbn [negb String.eqb Ascii.eqb Bool.eqb].
  unfold try_catch, bind, fetch, await, ret.
  destruct (net (TaskClassifier.classificationRequest queryText)) as [e|r].
  - eexists. split; reflexivity.
  - destruct (ok r).
    + destruct (TaskClassifier.readClassification ToNumber "LLM_Default" r);
        eexists; split; reflexivity.
    + eexists. split; reflexivity.
Qed.

(** C5, amended: for a non-empty query in whose lower-cased text no keyword
    of a task other than the default occurs, [classifyQuery] sends exactly
    one request, the classification request, whatever comes back; and when
    the call fails (the transport throws, the status is not 2xx, or the
    response offers no content: its body is not JSON, it has no choices, or
    its first choice has no [message.content] that is a string) the task
    of the classification is [LLM_Default]. *)
Theorem classifyQuery_fallback (modelManager : ModelManager.t)
    (taskTypes : list (string * TaskConfig)) (queryText : string)
    (log : list Request) :
  queryText <> EmptyString ->
  noTaskKeywordOccurs taskTypes queryText ->
  exists classification,
    TaskClassifier.classifyQuery ToNumber net modelManager taskTypes
      queryText log
    = (Returns classification,
       log ++ [TaskClassifier.classificationRequest queryText])
    /\ (classificationFails ToNumber
          (net (TaskClassifier.classificationRequest queryText)) ->
        task classification = "LLM_Default").
Proof.
  intros Hq Hno.
  assert (JsString.truthy queryText = true) as Htruthy
    by (by destruct queryText).
  destruct (classifyQuery_default_scan modelManager taskTypes queryText log
              Htruthy (determineTaskType_default _ _ Hno))
    as (answer & Hrun & Hanswer).
  eexists. split; [exact Hrun|].
  cbn [task]. rewrite Hanswer. clear Hrun Hanswer.
  intros Hfail. inversion Hfail as [e He | r Hok Hr | r Hok Hcontent Hr].
  - reflexivity.
  - by rewrite Hok.
  - rewrite Hok.
    destruct (readClassification_unusable "LLM_Default" r Hcontent)
      as [-> | [e ->]]; reflexivity.
Qed.

(** C10: [getModelForTask] is the constant "llama3-8b-8192", and the model
    of the classification of a non-empty query is that constant, whatever
    the model manager, the task table and the network are. *)
Theorem classifyQuery_model_constant :
  (forall task complexity,
      TaskClassifier.getModelForTask task complexity = "llama3-8b-8192")
  /\ (forall modelManager taskTypes queryText log,
         queryText <> EmptyString ->
         exists classification log',
           TaskClassifier.classifyQuery ToNumber net modelManager taskTypes
             queryText log
           = (Returns classification, log')
           /\ model classification = Some "llama3-8b-8192").
Proof.
  split; [reflexivity|].
  intros modelManager taskTypes queryText log Hq.
  assert (JsString.truthy queryText = true) as Htruthy
    by (by destruct queryText).
  destruct (String.eqb (TaskClassifier.determineTaskType taskTypes queryText)
              "LLM_Default") eqn:Escan.
  - apply String.eqb_eq in Escan.
    destruct (classifyQuery_default_scan modelManager taskTypes queryText log
                Htruthy Escan) as (answer & Hrun & _).
    eexists. eexists. split; [exact Hrun | reflexivity].
  - unfold TaskClassifier.classifyQuery. rewrite Htruthy, Escan.
    eexists. eexists. split; reflexivity.
Qed.

End ClassifierProperties.

Lemma no_task_keyword_in_hello :
  noTaskKeywordOccurs TASK_TYPES "Hello there".
Proof.
  intros taskType taskConfig keyword Hentry Hne Hkeyword.
  unfold TASK_TYPES in Hentry.
  repeat (apply elem_of_cons in Hentry; destruct Hentry as [Hentry|Hentry];
          [injection Hentry as -> ->; cbn [keywords] in Hkeyword;
           repeat (apply elem_of_cons in Hkeyword;
                   destruct Hkeyword as [->|Hkeyword];
                   [by apply includes_false_iff|]);
           by apply elem_of_nil in Hkeyword|]).
  by apply elem_of_nil in Hentry.
Qed.

(** C5, as stated, fails: a reply whose content is white space only offers
    nothing usable, and the task of the classification is then the empty
    string, which the trimming leaves, not [LLM_Default]. *)
Lemma blank_answer_is_not_default :
  let request := TaskClassifier.classificationRequest "Hello there" in
  noTaskKeywordOccurs TASK_TYPES "Hello there"
  /\ (exists r,
        blank_network request = FetchResolves r
        /\ ok r = true
        /\ usableContent sample_ToNumber (json r) = Some "  "
        /\ JsString.trim "  " = EmptyString)
  /\ exists classification,
       TaskClassifier.classifyQuery sample_ToNumber blank_network
         (ModelManager.new "BALANCED") TASK_TYPES "Hello there" []
       = (Returns classification, [request])
       /\ task classification = EmptyString
       /\ task classification <> "LLM_Default".
Proof.
  intros request. subst request.
  split; [apply no_task_keyword_in_hello|].
  split; [eexists; repeat split; reflexivity|].
  eexists. split; [vm_compute; reflexivity|].
  split; [reflexivity | discriminate].
Qed.

Lemma classifyQuery_fallback_witness :
  exists classification,
    TaskClassifier.classifyQuery sample_ToNumber failing_network
      (ModelManager.new "QUALITY_OPTIMIZED") TASK_TYPES "Hello there" []
    = (Returns classification,
       [TaskClassifier.classificationRequest "Hello there"])
    /\ task classification = "LLM_Default".
Proof.
  destruct (classifyQuery_fallback sample_ToNumber failing_network
              (ModelManager.new "QUALITY_OPTIMIZED") TASK_TYPES
              "Hello there" [])
    as (classification & Hrun & Hfail).
  - discriminate.
  - apply no_task_keyword_in_hello.
  - exists classification. split; [exact Hrun|].
    apply Hfail. apply fails_network.
Defined.

Lemma classifyQuery_model_constant_witness :
  exists classification log',
    TaskClassifier.classifyQuery sample_ToNumber answering_network
      (ModelManager.new "QUALITY_OPTIMIZED") TASK_TYPES
      "Summarize this report" []
    = (Returns classification, log')
    /\ model classification = Some "llama3-8b-8192".
Proof.
  destruct (classifyQuery_model_constant sample_ToNumber answering_network)
    as [_ H].
  apply H. discriminate.
Defined.

(** The answer of the classification call, trimmed, becomes the task. *)
Example classifyQuery_uses_answer :
  fst (TaskClassifier.classifyQuery sample_ToNumber classifying_network
         (ModelManager.new "BALANCED") TASK_TYPES "Hello there" [])
  = Returns
      (mkClassification "LLM_Analysis" (Some "llama3-8b-8192") SHORT
         "Short text (11 chars, 2 words)"
         (Some (mkTextStats 11 2 0 1
                  (11 / 100 + 2 / 20 + 0 * 2 + 1 * 3)%float))).
Proof. vm_compute. reflexivity. Qed.

(** A keyword of a task decides without a call. *)
Example classifyQuery_keyword_no_call :
  TaskClassifier.classifyQuery sample_ToNumber failing_network
    (ModelManager.new "BALANCED") TASK_TYPES "Please SUMMARIZE this." []
  = (Returns
       (mkClassification "LLM_Summary" (Some "llama3-8b-8192") MEDIUM
          "Short text (22 chars, 3 words) - Upgraded due to analytical keywords"
          (Some (mkTextStats 22 3 1 1
                   (22 / 100 + 3 / 20 + 1 * 2 + 1 * 3)%float))),
     []).
Proof. vm_compute. reflexivity. Qed.

(** ** Further properties *)

(** *** models.js: strategies and the registry *)

Section ManagerProperties.

Lemma table_keys (table : gmap string string) (complexity : string) :
  table ∈ [COST_OPTIMIZED; QUALITY_OPTIMIZED; SPEED_OPTIMIZED; BALANCED] ->
  complexity ∉ COMPLEXITY_BUCKETS ->
  table !! complexity = None.
Proof.
  intros Htable Hc.
  repeat (apply elem_of_cons in Htable; destruct Htable as [->|Htable]);
    try (by apply elem_of_nil in Htable);
    apply not_elem_of_list_to_map_1; exact Hc.
Qed.

Lemma new_table (strategy : string) :
  ModelManager.models (ModelManager.new strategy)
  ∈ [COST_OPTIMIZED; QUALITY_OPTIMIZED; SPEED_OPTIMIZED; BALANCED].
Proof.
  unfold ModelManager.new; simpl.
  destruct (MODEL_SELECTION_STRATEGIES !! strategy) as [table|] eqn:E.
  - apply elem_of_list_to_map_2 in E.
    repeat (apply elem_of_cons in E; destruct E as [E|E];
            [injection E as _ <-; apply list_elem_of_In; simpl; tauto|]).
    by apply elem_of_nil in E.
  - apply list_elem_of_In; simpl; tauto.
Qed.

(** X1: The constructor keeps an unsupported strategy name and resolves by the
    BALANCED table; an unknown complexity resolves as SHORT; and every
    answer is a registered model. *)
Theorem getModelForComplexity_fallbacks (strategy complexity : string) :
  strategy ∉ inheritedNames ->
  complexity ∉ inheritedNames ->
  ModelManager.getStrategy (ModelManager.new strategy) = strategy
  /\ (strategy ∉ SUPPORTED_STRATEGIES ->
      ModelManager.models (ModelManager.new strategy) = BALANCED)
  /\ (complexity ∉ COMPLEXITY_BUCKETS ->
      ModelManager.getModelForComplexity (ModelManager.new strategy) complexity
      = ModelManager.getModelForComplexity (ModelManager.new strategy) "SHORT")
  /\ exists modelId,
       ModelManager.getModelForComplexity (ModelManager.new strategy) complexity
       = Some modelId
       /\ modelId ∈ dom MODEL_REGISTRY.
Proof.
  intros Hstrategy Hcomplexity. split; [reflexivity|]. split; [|split].
  - intros Hs. unfold ModelManager.new; simpl.
    assert (MODEL_SELECTION_STRATEGIES !! strategy = None) as ->; [|reflexivity].
    apply not_elem_of_list_to_map_1. exact Hs.
  - intros Hc. unfold ModelManager.getModelForComplexity.
    rewrite (table_keys _ _ (new_table strategy) Hc). unfold js_or_string.
    destruct (ModelManager.models (ModelManager.new strategy) !! "SHORT")
      as [m|]; [by destruct (JsString.truthy m) | reflexivity].
  - destruct (getModelForComplexity_registered strategy complexity
                Hstrategy Hcomplexity) as (modelId & Hm & Hr).
    exists modelId. split; [exact Hm|]. by apply elem_of_dom.
Qed.

Lemma getModelForComplexity_fallbacks_witness :
  ModelManager.getStrategy (ModelManager.new "CHEAPEST") = "CHEAPEST"
  /\ ModelManager.models (ModelManager.new "CHEAPEST") = BALANCED
  /\ ModelManager.getModelForComplexity (ModelManager.new "CHEAPEST") "HUGE"
     = ModelManager.getModelForComplexity (ModelManager.new "CHEAPEST") "SHORT".
Proof.
  assert (forall x : string,
             x ∈ ["CHEAPEST"; "HUGE"] -> x ∉ inheritedNames) as Hown.
  { intros x Hx Hin. apply list_elem_of_In in Hx, Hin. simpl in Hx, Hin.
    intuition (subst; discriminate). }
  destruct (getModelForComplexity_fallbacks "CHEAPEST" "HUGE")
    as (H1 & H2 & H3 & _).
  - apply Hown, list_elem_of_In; simpl; tauto.
  - apply Hown, list_elem_of_In; simpl; tauto.
  - split; [exact H1|]. split.
    + apply H2. intros Hin. apply list_elem_of_In in Hin. simpl in Hin.
      intuition discriminate.
    + apply H3. intros Hin. apply list_elem_of_In in Hin. simpl in Hin.
      intuition discriminate.
Defined.

(** X2: [setStrategy] switches to a supported strategy, after which the manager
    is the one the constructor builds for it, and ignores any other name. *)
Theorem setStrategy_spec (this : ModelManager.t) (strategy : string) :
  strategy ∉ inheritedNames ->
  (strategy ∈ SUPPORTED_STRATEGIES ->
   ModelManager.getStrategy (ModelManager.setStrategy this strategy) = strategy
   /\ ModelManager.setStrategy this strategy = ModelManager.new strategy)
  /\ (strategy ∉ SUPPORTED_STRATEGIES ->
      ModelManager.setStrategy this strategy = this).
Proof.
  intros _. split.
  - intros Hs. unfold SUPPORTED_STRATEGIES in Hs.
    repeat (apply elem_of_cons in Hs; destruct Hs as [->|Hs];
            [split; reflexivity|]).
    by apply elem_of_nil in Hs.
  - intros Hs. unfold ModelManager.setStrategy.
    assert (MODEL_SELECTION_STRATEGIES !! strategy = None) as ->; [|reflexivity].
    apply not_elem_of_list_to_map_1. exact Hs.
Qed.

Lemma setStrategy_spec_witness :
  ModelManager.setStrategy (ModelManager.new "BALANCED") "SPEED_OPTIMIZED"
  = ModelManager.new "SPEED_OPTIMIZED"
  /\ ModelManager.setStrategy (ModelManager.new "BALANCED") "FASTEST"
     = ModelManager.new "BALANCED".
Proof.
  split.
  - destruct (setStrategy_spec (ModelManager.new "BALANCED") "SPEED_OPTIMIZED")
      as [H _].
    + intros Hin. apply list_elem_of_In in Hin. simpl in Hin.
      intuition discriminate.
    + apply H. apply list_elem_of_In. simpl. tauto.
  - destruct (setStrategy_spec (ModelManager.new "BALANCED") "FASTEST")
      as [_ H].
    + intros Hin. apply list_elem_of_In in Hin. simpl in Hin.
      intuition discriminate.
    + apply H. intros Hin. apply list_elem_of_In in Hin. simpl in Hin.
      intuition discriminate.
Defined.

(** X3: After [addCustomModel(modelId, config)] the model has that
    configuration and every other registered model keeps its own; an
    unregistered model still falls back to the default model, which is the
    new configuration when [modelId] is the default model's identifier. *)
Theorem addCustomModel_lookup (registry : gmap string ModelConfig)
    (modelId other : string) (config : ModelConfig) :
  modelId ∉ inheritedNames ->
  other ∉ inheritedNames ->
  ModelManager.getModelConfig
    (AIOrchestrator.addCustomModel registry modelId config) modelId
  = Some config
  /\ (other <> modelId -> is_Some (registry !! other) ->
      ModelManager.getModelConfig
        (AIOrchestrator.addCustomModel registry modelId config) other
      = registry !! other)
  /\ (other <> modelId -> registry !! other = None ->
      ModelManager.getModelConfig
        (AIOrchestrator.addCustomModel registry modelId config) other
      = if String.eqb modelId "llama3-8b-8192" then Some config
        else registry !! "llama3-8b-8192").
Proof.
  intros _ _.
  unfold ModelManager.getModelConfig, AIOrchestrator.addCustomModel.
  split; [by rewrite lookup_insert_eq|]. split.
  - intros Hne [c Hc]. rewrite lookup_insert_ne by done. by rewrite Hc.
  - intros Hne Hnone. rewrite lookup_insert_ne by done. rewrite Hnone.
    destruct (String.eqb modelId "llama3-8b-8192") eqn:E.
    + apply String.eqb_eq in E as ->. by rewrite lookup_insert_eq.
    + apply String.eqb_neq in E. by rewrite lookup_insert_ne.
Qed.

End ManagerProperties.

(** *** contextManager.js: what a selection keeps *)

Section SelectionKeeps.
Context {A : Type}.
Variable undefined : A.

Lemma slice_from_suffix (start : Z) (messages : list A) :
  slice_from start messages `suffix_of` messages.
Proof.
  unfold slice_from.
  set (k := Z.to_nat _). exists (take k messages). by rewrite take_drop.
Qed.

Lemma slice_from_nonempty (start : Z) (messages : list A) :
  messages <> [] ->
  start < Z.of_nat (length messages) ->
  slice_from start messages <> [].
Proof.
  intros Hne Hstart Hnil. unfold slice_from in Hnil.
  apply drop_nil_inv in Hnil.
  assert (0 < length messages)%nat by (destruct messages; simpl; [done|lia]).
  destruct (start <? 0) eqn:E; [apply Z.ltb_lt in E|apply Z.ltb_ge in E]; lia.
Qed.

Lemma slice_from_all (start : Z) (messages : list A) :
  start <= 0 ->
  Z.of_nat (length messages) <= - start \/ start = 0 ->
  slice_from start messages = messages.
Proof.
  intros Hneg Hfit. unfold slice_from.
  replace (Z.to_nat _) with 0%nat; [reflexivity|].
  destruct (start <? 0) eqn:E; [apply Z.ltb_lt in E|apply Z.ltb_ge in E]; lia.
Qed.

Lemma last_suffix (kept messages : list A) :
  kept `suffix_of` messages -> kept <> [] -> last kept = last messages.
Proof.
  intros [older ->] Hne. rewrite last_app.
  destruct (last kept) eqn:E; [reflexivity|].
  by apply last_None in E.
Qed.

Lemma at_index_elem (messages : list A) (i : Z) :
  0 <= i < Z.of_nat (length messages) ->
  at_index undefined messages i ∈ messages.
Proof.
  intros Hi. unfold at_index.
  assert ((i <? 0) = false) as -> by (apply Z.ltb_ge; lia).
  apply list_elem_of_In, nth_In. lia.
Qed.

Lemma middle_in_range (messages : list A) :
  messages <> [] ->
  0 <= Z.of_nat (length messages) / 2 < Z.of_nat (length messages).
Proof.
  intros Hne.
  assert (0 < Z.of_nat (length messages))
    by (destruct messages; simpl; [done|lia]).
  split; [apply Z.div_pos; lia | apply Z.div_lt; lia].
Qed.

Lemma elem_of_slice_from (start : Z) (messages : list A) (x : A) :
  x ∈ slice_from start messages -> x ∈ messages.
Proof.
  intros Hx. destruct (slice_from_suffix start messages) as [older ->].
  apply elem_of_app. by right.
Qed.

(** X6: A selection invents nothing: whatever the limit, every message a
    strategy returns for a non-empty list is a message of that list. *)
Theorem selection_keeps_to_input (messages : list A) (n : Z) (x : A) :
  messages <> [] ->
  x ∈ ContextManager.selectRecentMessages messages n
  \/ x ∈ ContextManager.selectSmartMessages undefined messages n
  \/ x ∈ ContextManager.selectComprehensiveMessages undefined messages n
  \/ x ∈ ContextManager.selectMinimalMessages messages n ->
  x ∈ messages.
Proof.
  intros Hne.
  assert (at_index undefined messages 0 ∈ messages) as Hfirst.
  { apply at_index_elem. destruct messages; simpl; [done|lia]. }
  pose proof (at_index_elem messages _ (middle_in_range messages Hne))
    as Hmiddle.
  unfold ContextManager.selectRecentMessages,
    ContextManager.selectSmartMessages,
    ContextManager.selectComprehensiveMessages,
    ContextManager.selectMinimalMessages.
  destruct (Z.of_nat (length messages) <=? n);
    intros [H|[H|[H|H]]];
    repeat (apply elem_of_cons in H; destruct H as [->|H]);
    eauto using elem_of_slice_from.
Qed.

(** X7: With a limit of at least one, every strategy ends its selection with
    the most recent message of a non-empty list. *)
Theorem selection_keeps_most_recent (messages : list A) (n : Z) :
  messages <> [] ->
  1 <= n ->
  last (ContextManager.selectRecentMessages messages n) = last messages
  /\ last (ContextManager.selectSmartMessages undefined messages n)
     = last messages
  /\ last (ContextManager.selectComprehensiveMessages undefined messages n)
     = last messages
  /\ last (ContextManager.selectMinimalMessages messages n) = last messages.
Proof.
  intros Hne Hn.
  assert (0 < Z.of_nat (length messages))
    by (destruct messages; simpl; [done|lia]).
  assert (forall start,
             start < Z.of_nat (length messages) ->
             last (slice_from start messages) = last messages) as Hslice.
  { intros start Hstart. apply last_suffix;
      [apply slice_from_suffix | by apply slice_from_nonempty]. }
  assert (forall start x,
             start < Z.of_nat (length messages) ->
             last (x :: slice_from start messages) = last messages)
    as Hcons.
  { intros start x Hstart. rewrite last_cons, Hslice by done.
    destruct (last messages) eqn:E; [reflexivity|].
    by apply last_None in E. }
  unfold ContextManager.selectRecentMessages,
    ContextManager.selectSmartMessages,
    ContextManager.selectComprehensiveMessages,
    ContextManager.selectMinimalMessages.
  destruct (Z.of_nat (length messages) <=? n) eqn:E;
    [apply Z.leb_le in E | apply Z.leb_gt in E];
    repeat split; try reflexivity;
    rewrite ?(last_cons (at_index undefined messages 0)
                (at_index _ _ _ :: _));
    try (apply Hslice; lia); try (apply Hcons; lia).
  all: rewrite Hcons by lia. all: destruct (last messages) eqn:El;
    [reflexivity | by apply last_None in El].
Qed.

Lemma registry_strategy (model : string) (config : ModelConfig) :
  ModelManager.getModelConfig MODEL_REGISTRY model = Some config ->
  contextStrategy (contextConfig config)
  ∈ ["recent"; "smart"; "comprehensive"].
Proof.
  unfold ModelManager.getModelConfig.
  destruct (MODEL_REGISTRY !! model) as [c|] eqn:E.
  - intros [= <-]. apply elem_of_list_to_map_2 in E.
    repeat (apply elem_of_cons in E; destruct E as [E|E];
            [injection E as _ ->; apply list_elem_of_In; simpl; tauto|]).
    by apply elem_of_nil in E.
  - intros [= <-]. apply list_elem_of_In; simpl; tauto.
Qed.

(** X8: With the built-in registry, whatever the model, a non-empty history
    that has no more messages than the limit is selected whole. *)
Theorem selection_whole_when_fits (messages : list A) (model : string)
    (n : Z) :
  model ∉ inheritedNames ->
  messages <> [] ->
  Z.of_nat (length messages) <= n ->
  ContextManager.selectContextMessages undefined MODEL_REGISTRY messages
    model n = Some messages.
Proof.
  intros _ Hne Hfit. unfold ContextManager.selectContextMessages.
  destruct messages as [|first rest]; [done|].
  destruct (ModelManager.getModelConfig MODEL_REGISTRY model)
    as [config|] eqn:E.
  - pose proof (registry_strategy _ _ E) as Hs.
    unfold ContextManager.selectRecentMessages,
      ContextManager.selectSmartMessages,
      ContextManager.selectComprehensiveMessages.
    apply Z.leb_le in Hfit as Hfit'. rewrite Hfit'.
    repeat (apply elem_of_cons in Hs; destruct Hs as [->|Hs]);
      try (by apply elem_of_nil in Hs); cbn [String.eqb Ascii.eqb Bool.eqb];
      try reflexivity.
    f_equal. apply slice_from_all; lia.
  - unfold ModelManager.getModelConfig in E.
    destruct (MODEL_REGISTRY !! model); discriminate E.
Qed.

End SelectionKeeps.

Lemma selection_keeps_to_input_witness :
  "b" ∈ ContextManager.selectComprehensiveMessages "?" ["a"; "b"; "c"] 1
  /\ "b" ∈ ["a"; "b"; "c"].
Proof.
  assert ("b" ∈ ContextManager.selectComprehensiveMessages "?"
                  ["a"; "b"; "c"] 1) as Hin
    by (vm_compute; apply list_elem_of_In; simpl; tauto).
  split; [exact Hin|].
  apply (selection_keeps_to_input "?" ["a"; "b"; "c"] 1 "b"); [done|].
  right. right. left. exact Hin.
Defined.

Lemma selection_keeps_most_recent_witness :
  last (ContextManager.selectSmartMessages "?" ["a"; "b"; "c"] 1) = Some "c"
  /\ last (ContextManager.selectComprehensiveMessages "?" ["a"; "b"; "c"] 1)
     = Some "c".
Proof.
  destruct (selection_keeps_most_recent "?" ["a"; "b"; "c"] 1)
    as (_ & H1 & H2 & _); [done | lia | by split].
Defined.

Lemma selection_whole_when_fits_witness :
  ContextManager.selectContextMessages "?" MODEL_REGISTRY ["a"; "b"]
    "no-such-model" 3 = Some ["a"; "b"].
Proof.
  apply (selection_whole_when_fits "?" ["a"; "b"] "no-such-model" 3);
    [|done|simpl; lia].
  intros Hin. apply list_elem_of_In in Hin. simpl in Hin.
  intuition discriminate.
Defined.

(** X9: [selectContextMessages] never reads past the end of the array: the
    value such a read would give does not show in its result. *)
Theorem selectContextMessages_reads_in_range {A : Type} (u1 u2 : A)
    (registry : gmap string ModelConfig) (messages : list A)
    (model : string) (n : Z) :
  ContextManager.selectContextMessages u1 registry messages model n
  = ContextManager.selectContextMessages u2 registry messages model n.
Proof.
  unfold ContextManager.selectContextMessages.
  destruct messages as [|first rest]; [reflexivity|].
  destruct (ModelManager.getModelConfig registry model); [|reflexivity].
  assert (forall i, 0 <= i < Z.of_nat (length (first :: rest)) ->
            at_index u1 (first :: rest) i = at_index u2 (first :: rest) i)
    as Hidx.
  { intros i Hi. unfold at_index.
    assert ((i <? 0) = false) as -> by (apply Z.ltb_ge; lia).
    apply nth_indep. lia. }
  unfold ContextManager.selectSmartMessages,
    ContextManager.selectComprehensiveMessages.
  rewrite (Hidx 0) by (simpl; lia).
  rewrite (Hidx (Z.of_nat (length (first :: rest)) / 2))
    by (by apply middle_in_range).
  reflexivity.
Qed.

(** *** contextManager.js: what the optimisation keeps *)

Section OptimizeShape.

(** X13: The estimate is the length divided by four, rounded up. *)
Theorem estimateTokenCount_bounds (text : string) :
  JsString.length text <= 4 * ContextManager.estimateTokenCount text
  /\ 4 * ContextManager.estimateTokenCount text < JsString.length text + 4
  /\ (ContextManager.estimateTokenCount text = 0 <-> text = EmptyString).
Proof.
  unfold ContextManager.estimateTokenCount, ceil_div4.
  pose proof (length_nonneg text) as Hlen.
  repeat split.
  - Z.to_euclidean_division_equations. lia.
  - Z.to_euclidean_division_equations. lia.
  - intros H0. destruct text as [|c text]; [reflexivity|].
    unfold JsString.length in *. simpl String.length in *.
    Z.to_euclidean_division_equations. lia.
  - intros ->. reflexivity.
Qed.

Lemma estimateTokenCount_nonneg (text : string) :
  0 <= ContextManager.estimateTokenCount text.
Proof.
  unfold ContextManager.estimateTokenCount, ceil_div4.
  pose proof (length_nonneg text).
  Z.to_euclidean_division_equations. lia.
Qed.

Lemma totalTokensOf_nil : ContextManager.totalTokensOf [] = 0.
Proof. reflexivity. Qed.

Lemma totalTokensOf_app (l k : list Message) :
  ContextManager.totalTokensOf (l ++ k)
  = ContextManager.totalTokensOf l + ContextManager.totalTokensOf k.
Proof.
  induction l as [|m l IH]; [rewrite totalTokensOf_nil; simpl; lia|].
  rewrite <- app_comm_cons, !totalTokensOf_cons, IH. lia.
Qed.

Lemma totalTokensOf_nonneg (l : list Message) :
  0 <= ContextManager.totalTokensOf l.
Proof.
  induction l as [|m l IH]; [by rewrite totalTokensOf_nil|].
  rewrite totalTokensOf_cons. pose proof (estimateTokenCount_nonneg (content m)).
  lia.
Qed.

Lemma totalTokensOf_rev (l : list Message) :
  ContextManager.totalTokensOf (rev l) = ContextManager.totalTokensOf l.
Proof.
  induction l as [|m l IH]; [reflexivity|].
  simpl rev. rewrite totalTokensOf_app, !totalTokensOf_cons, IH.
  rewrite totalTokensOf_nil. lia.
Qed.

Lemma optimizeLoop_all_fit (maxContextTokens : Z) (pending : list Message) :
  forall totalTokens optimizedMessages,
    totalTokens + ContextManager.totalTokensOf pending <= maxContextTokens ->
    ContextManager.optimizeLoop maxContextTokens pending totalTokens
      optimizedMessages
    = rev pending ++ optimizedMessages.
Proof.
  induction pending as [|message earlier IH]; intros total acc Hfit;
    [reflexivity|].
  rewrite totalTokensOf_cons in Hfit.
  pose proof (totalTokensOf_nonneg earlier).
  cbn [ContextManager.optimizeLoop].
  assert ((total + ContextManager.estimateTokenCount (content message)
           <=? maxContextTokens) = true) as -> by (apply Z.leb_le; lia).
  rewrite IH by lia. simpl rev. by rewrite <- app_assoc.
Qed.

(** X11: A context whose estimated tokens fit in 70% of the budget comes back
    as it is. *)
Theorem optimizeContext_unchanged_when_fits
    (registry : gmap string ModelConfig) (contextMessages : list Message)
    (model : string) (maxTokens : Z) :
  ContextManager.totalTokensOf contextMessages
  <= ContextManager.maxContextTokensOf maxTokens ->
  ContextManager.optimizeContext registry contextMessages model maxTokens
  = contextMessages.
Proof.
  intros Hfit. unfold ContextManager.optimizeContext.
  rewrite optimizeLoop_all_fit by (rewrite totalTokensOf_rev; lia).
  by rewrite rev_involutive, app_nil_r.
Qed.

Lemma optimizeContext_unchanged_when_fits_witness :
  ContextManager.optimizeContext MODEL_REGISTRY
    [mkMessage "user" "What is the capital of France?";
     mkMessage "assistant" "The capital of France is Paris."]
    "llama3-8b-8192" 1500
  = [mkMessage "user" "What is the capital of France?";
     mkMessage "assistant" "The capital of France is Paris."].
Proof.
  apply optimizeContext_unchanged_when_fits. vm_compute. discriminate.
Defined.

Lemma optimizeLoop_shape (maxContextTokens : Z) (pending : list Message) :
  forall totalTokens optimizedMessages,
    totalTokens = ContextManager.totalTokensOf optimizedMessages ->
    totalTokens <= Z.max 0 maxContextTokens ->
    exists taken rest,
      pending = taken ++ rest
      /\ ContextManager.totalTokensOf (rev taken ++ optimizedMessages)
         <= Z.max 0 maxContextTokens
      /\ (ContextManager.optimizeLoop maxContextTokens pending totalTokens
            optimizedMessages
          = rev taken ++ optimizedMessages
          \/ exists message earlier,
               rest = message :: earlier
               /\ ContextManager.optimizeLoop maxContextTokens pending
                    totalTokens optimizedMessages
                  = truncatedTo
                      (maxContextTokens
                       - ContextManager.totalTokensOf
                           (rev taken ++ optimizedMessages))
                      message
                    :: rev taken ++ optimizedMessages
               /\ ContextManager.totalTokensOf
                    (ContextManager.optimizeLoop maxContextTokens pending
                       totalTokens optimizedMessages)
                  = maxContextTokens + 1).
Proof.
  induction pending as [|message earlier IH]; intros total acc Htotal Hmax.
  - exists [], []. repeat split; [simpl; lia | by left].
  - cbn [ContextManager.optimizeLoop].
    destruct (total + ContextManager.estimateTokenCount (content message)
              <=? maxContextTokens) eqn:Efit.
    + apply Z.leb_le in Efit.
      destruct (IH (total + ContextManager.estimateTokenCount (content message))
                  (message :: acc)) as (taken & rest & Hsplit & Hsum & Hres).
      { rewrite totalTokensOf_cons. lia. }
      { lia. }
      exists (message :: taken), rest.
      simpl rev. rewrite <- !app_assoc. simpl app.
      split; [by rewrite Hsplit|]. split; [exact Hsum|exact Hres].
    + apply Z.leb_gt in Efit.
      exists [], (message :: earlier). simpl rev. simpl app.
      split; [reflexivity|]. split; [lia|].
      destruct (100 <? (maxContextTokens - total) * 4) eqn:Eroom.
      * right. exists message, earlier. apply Z.ltb_lt in Eroom.
        split; [reflexivity|]. split; [by rewrite <- Htotal|].
        rewrite totalTokensOf_cons. simpl content.
        rewrite truncated_tokens; lia.
      * by left.
Qed.

(** X10: The estimated tokens of an optimised context are never negative and
    never more than one above 70% of the token budget, rounded down (and
    zero when that is negative). *)
Theorem optimizeContext_within_one_token
    (registry : gmap string ModelConfig) (contextMessages : list Message)
    (model : string) (maxTokens : Z) :
  0 <= ContextManager.totalTokensOf
         (ContextManager.optimizeContext registry contextMessages model
            maxTokens)
  <= Z.max 0 (ContextManager.maxContextTokensOf maxTokens + 1).
Proof.
  split; [apply totalTokensOf_nonneg|].
  unfold ContextManager.optimizeContext. by apply optimizeLoop_bound.
Qed.

(** X12: [optimizeContext] drops messages from the old end only and keeps the
    order: the result is the most recent messages that fit, within the
    budget, or those messages after a cut copy of the message before them,
    and then it is one token above the budget. *)
Theorem optimizeContext_shape (registry : gmap string ModelConfig)
    (contextMessages : list Message) (model : string) (maxTokens : Z) :
  let budget := ContextManager.maxContextTokensOf maxTokens in
  let optimized :=
    ContextManager.optimizeContext registry contextMessages model maxTokens in
  exists older kept,
    contextMessages = older ++ kept
    /\ ContextManager.totalTokensOf kept <= Z.max 0 budget
    /\ (optimized = kept
        \/ exists before message,
             older = before ++ [message]
             /\ optimized
                = truncatedTo (budget - ContextManager.totalTokensOf kept)
                    message :: kept
             /\ ContextManager.totalTokensOf optimized = budget + 1).
Proof.
  intros budget optimized. subst optimized.
  unfold ContextManager.optimizeContext. fold budget.
  destruct (optimizeLoop_shape budget (rev contextMessages) 0 [])
    as (taken & rest & Hsplit & Hsum & Hres); [reflexivity | lia |].
  rewrite app_nil_r in *.
  exists (rev rest), (rev taken).
  split.
  { rewrite <- rev_app_distr, <- Hsplit. by rewrite rev_involutive. }
  split; [exact Hsum|].
  destruct Hres as [Hres | (message & earlier & -> & Hres & Htot)].
  - by left.
  - right. exists (rev earlier), message. simpl rev. by repeat split.
Qed.

End OptimizeShape.

(** *** contextManager.js: what the history becomes *)

Section HistoryCounts.

(** X14: The user texts of the turns come out in order, one user message a
    turn, the non-empty responses come out as the assistant messages, and
    there are between one and two messages a turn; a history that is
    [null] or has no [messages] gives no message. *)
Theorem processChatHistory_counts (turns : list Turn) :
  let result :=
    ContextManager.processChatHistory (Some (mkChatHistory (Some turns))) in
  map content (List.filter isUserMessage result) = map user turns
  /\ map content (List.filter (fun m => negb (isUserMessage m)) result)
     = omap nonEmptyResponse turns
  /\ (length turns <= length result <= 2 * length turns)%nat
  /\ ContextManager.processChatHistory None = []
  /\ ContextManager.processChatHistory (Some (mkChatHistory None)) = [].
Proof.
  intros result. subst result.
  unfold ContextManager.processChatHistory. cbn [messages].
  rewrite processTurns_flat_map, app_nil_l.
  split; [|split; [|split; [|by split]]].
  - induction turns as [|[u r] turns IH]; [reflexivity|].
    cbn [flat_map map user]. unfold turnMessagesWhenNonEmpty at 1.
    cbn [user response].
    destruct r as [text|]; [destruct (JsString.truthy text)|];
      simpl; by rewrite IH.
  - induction turns as [|[u r] turns IH]; [reflexivity|].
    cbn [flat_map omap list_omap]. unfold turnMessagesWhenNonEmpty at 1.
    unfold nonEmptyResponse at 1. cbn [user response].
    destruct r as [text|]; [destruct (JsString.truthy text)|];
      simpl; by rewrite IH.
  - assert (forall t, (1 <= length (turnMessagesWhenNonEmpty t) <= 2)%nat)
      as Hone.
    { intros [u [text|]]; unfold turnMessagesWhenNonEmpty; cbn [response];
        [destruct (JsString.truthy text)|]; simpl; lia. }
    induction turns as [|t turns IH]; [simpl; lia|].
    cbn [flat_map]. rewrite length_app, length_cons.
    specialize (Hone t). lia.
Qed.

End HistoryCounts.

(** *** taskClassifier.js: the keyword scan and the use of the network *)

Section ScanProperties.
Variable ToNumber : Json -> float.
Variable net : Request -> FetchOutcome.

Lemma existsb_keywordOccurs (query : string) (taskConfig : TaskConfig) :
  existsb (fun keyword => JsString.includes query keyword)
    (keywords taskConfig) = true
  <-> keywordOccurs query taskConfig.
Proof.
  unfold keywordOccurs. rewrite existsb_exists.
  split; intros (keyword & Hin & Hocc); exists keyword;
    (split; [by apply list_elem_of_In | by apply includes_iff]).
Qed.

Lemma firstMatchingTask_first_match (entries : list (string * TaskConfig))
    (query : string) :
  (TaskClassifier.firstMatchingTask entries query = "LLM_Default"
   /\ noneMatches query entries)
  \/ (exists before taskType taskConfig after,
        entries = before ++ (taskType, taskConfig) :: after
        /\ TaskClassifier.firstMatchingTask entries query = taskType
        /\ taskType <> "LLM_Default"
        /\ keywordOccurs query taskConfig
        /\ noneMatches query before).
Proof.
  induction entries as [|[taskType taskConfig] entries IH].
  - left. split; [reflexivity|]. intros t c Hin. by apply elem_of_nil in Hin.
  - cbn [TaskClassifier.firstMatchingTask].
    assert (forall rest,
               (String.eqb taskType "LLM_Default" = true
                \/ ~ keywordOccurs query taskConfig) ->
               noneMatches query rest ->
               noneMatches query ((taskType, taskConfig) :: rest)) as Hskip.
    { intros rest Hhere Hrest t c Hin Hne.
      apply elem_of_cons in Hin as [[= -> ->]|Hin];
        [|exact (Hrest t c Hin Hne)].
      destruct Hhere as [Heq|Hno]; [|exact Hno].
      by apply String.eqb_eq in Heq. }
    destruct (String.eqb taskType "LLM_Default") eqn:Edefault.
    + destruct IH as [[Hres Hnone] | (before & t & c & after & -> & Hres & Hne & Hocc & Hnone)].
      * left. split; [exact Hres|]. apply Hskip; auto.
      * right. exists ((taskType, taskConfig) :: before), t, c, after.
        repeat split; auto. all: apply Hskip; auto.
    + destruct (existsb _ (keywords taskConfig)) eqn:Ematch.
      * right. exists [], taskType, taskConfig, entries.
        apply existsb_keywordOccurs in Ematch. apply String.eqb_neq in Edefault.
        repeat split; auto. all: intros t c Hin; by apply elem_of_nil in Hin.
      * assert (~ keywordOccurs query taskConfig) as Hno.
        { intros Hocc. apply existsb_keywordOccurs in Hocc.
          by rewrite Hocc in Ematch. }
        destruct IH as [[Hres Hnone] | (before & t & c & after & -> & Hres & Hne & Hocc & Hnone)].
        -- left. split; [exact Hres|]. apply Hskip; auto.
        -- right. exists ((taskType, taskConfig) :: before), t, c, after.
           repeat split; auto. all: apply Hskip; auto.
Qed.

(** X16: The keyword scan answers with the first entry of the task table, in
    its order and the default task apart, one of whose keywords occurs in
    the trimmed lower-cased query, and with the default task exactly when
    there is no such entry. *)
Theorem determineTaskType_first_match
    (taskTypes : list (string * TaskConfig)) (queryText : string) :
  let query := JsString.trim (JsString.toLowerCase queryText) in
  let answer := TaskClassifier.determineTaskType taskTypes queryText in
  (answer = "LLM_Default" <-> noneMatches query taskTypes)
  /\ (answer <> "LLM_Default" ->
      exists before taskConfig after,
        taskTypes = before ++ (answer, taskConfig) :: after
        /\ keywordOccurs query taskConfig
        /\ noneMatches query before).
Proof.
  intros query answer. subst answer.
  unfold TaskClassifier.determineTaskType. fold query.
  destruct (firstMatchingTask_first_match taskTypes query)
    as [[Hres Hnone] | (before & t & c & after & Hsplit & Hres & Hne & Hocc & Hnone)].
  - rewrite Hres. split; [by split|]. done.
  - rewrite Hres. split.
    + split; [done|]. intros Hall. exfalso.
      apply (Hall t c); [|exact Hne|exact Hocc].
      rewrite Hsplit. apply elem_of_app. right. apply list_elem_of_here.
    + intros _. by exists before, c, after.
Qed.

(** X17: [classifyQuery] never throws, and it sends a request, exactly one,
    only for a non-empty query that the keyword scan leaves to the default
    task: an empty query is answered with the model manager's SHORT model,
    and a query with a task keyword with the task of the scan. *)
Theorem classifyQuery_network_use (modelManager : ModelManager.t)
    (taskTypes : list (string * TaskConfig)) (queryText : string)
    (log : list Request) :
  let scan := TaskClassifier.determineTaskType taskTypes queryText in
  let analysis := TextComplexityAnalyzer.analyze queryText in
  let run :=
    TaskClassifier.classifyQuery ToNumber net modelManager taskTypes
      queryText log in
  (queryText = EmptyString ->
   run = (Returns
            (mkClassification "LLM_Default"
               (ModelManager.getModelForComplexity modelManager "SHORT")
               SHORT "Empty query" None),
          log))
  /\ (queryText <> EmptyString -> scan <> "LLM_Default" ->
      run = (Returns
               (mkClassification scan (Some "llama3-8b-8192")
                  (analysis_complexity analysis) (analysis_reason analysis)
                  (Some (analysis_stats analysis))),
             log))
  /\ (queryText <> EmptyString -> scan = "LLM_Default" ->
      exists answer,
        run = (Returns
                 (mkClassification answer (Some "llama3-8b-8192")
                    (analysis_complexity analysis) (analysis_reason analysis)
                    (Some (analysis_stats analysis))),
               log ++ [TaskClassifier.classificationRequest queryText])).
Proof.
  intros scan analysis run. subst scan analysis run.
  split; [|split].
  - intros ->. reflexivity.
  - intros Hq Hscan.
    assert (JsString.truthy queryText = true) as Htruthy
      by (by destruct queryText).
    apply String.eqb_neq in Hscan.
    unfold TaskClassifier.classifyQuery, TaskClassifier.getModelForTask.
    rewrite Htruthy, Hscan. reflexivity.
  - intros Hq Hscan.
    assert (JsString.truthy queryText = true) as Htruthy
      by (by destruct queryText).
    destruct (classifyQuery_default_scan ToNumber net modelManager taskTypes
                queryText log Htruthy Hscan) as (answer & Hrun & _).
    by exists answer.
Qed.

(** X18: [getTaskConfig] falls back to the configuration of the default task
    for a task type the table does not have; with the built-in table it
    always has a configuration to give. *)
Theorem getTaskConfig_fallback (taskType : string) :
  taskType ∉ inheritedNames ->
  (forall taskTypes,
      taskType ∉ TaskClassifier.getAvailableTasks taskTypes ->
      TaskClassifier.getTaskConfig taskTypes taskType
      = TaskClassifier.getTaskConfig taskTypes "LLM_Default")
  /\ exists taskConfig,
       TaskClassifier.getTaskConfig TASK_TYPES taskType = Some taskConfig
       /\ (taskType ∉ TaskClassifier.getAvailableTasks TASK_TYPES ->
           task_name taskConfig = "General").
Proof.
  intros _.
  assert (forall taskTypes,
             taskType ∉ TaskClassifier.getAvailableTasks taskTypes ->
             TaskClassifier.lookup_task taskType taskTypes = None) as Hmiss.
  { induction taskTypes as [|[k v] rest IH]; [reflexivity|].
    unfold TaskClassifier.getAvailableTasks. cbn [map fst].
    intros Hnot. apply not_elem_of_cons in Hnot as [Hne Hrest].
    cbn [TaskClassifier.lookup_task].
    assert (String.eqb k taskType = false) as ->
      by (apply String.eqb_neq; congruence).
    by apply IH. }
  split.
  - intros taskTypes Hnot. unfold TaskClassifier.getTaskConfig.
    rewrite (Hmiss _ Hnot).
    by destruct (TaskClassifier.lookup_task "LLM_Default" taskTypes).
  - unfold TaskClassifier.getTaskConfig.
    destruct (TaskClassifier.lookup_task taskType TASK_TYPES)
      as [taskConfig|] eqn:E.
    + exists taskConfig. split; [reflexivity|]. intros Hnot.
      by rewrite (Hmiss _ Hnot) in E.
    + eexists. split; [reflexivity|]. reflexivity.
Qed.

End ScanProperties.

Lemma getTaskConfig_fallback_witness :
  TaskClassifier.getTaskConfig TASK_TYPES "LLM_Poetry"
  = TaskClassifier.getTaskConfig TASK_TYPES "LLM_Default".
Proof.
  destruct (getTaskConfig_fallback "LLM_Poetry") as [H _].
  - intros Hin. apply list_elem_of_In in Hin. simpl in Hin.
    intuition discriminate.
  - apply H. intros Hin. apply list_elem_of_In in Hin. simpl in Hin.
    intuition discriminate.
Defined.

Lemma classifyQuery_network_use_witness :
  TaskClassifier.classifyQuery sample_ToNumber failing_network
    (ModelManager.new "QUALITY_OPTIMIZED") TASK_TYPES EmptyString []
  = (Returns
       (mkClassification "LLM_Default" (Some "llama3-70b-8192") SHORT
          "Empty query" None),
     [])
  /\ snd (TaskClassifier.classifyQuery sample_ToNumber failing_network
            (ModelManager.new "QUALITY_OPTIMIZED") TASK_TYPES
            "Summarize this report" [])
     = []
  /\ snd (TaskClassifier.classifyQuery sample_ToNumber failing_network
            (ModelManager.new "QUALITY_OPTIMIZED") TASK_TYPES
            "Hello there" [])
     = [TaskClassifier.classificationRequest "Hello there"].
Proof.
  split; [|split].
  - destruct (classifyQuery_network_use sample_ToNumber failing_network
                (ModelManager.new "QUALITY_OPTIMIZED") TASK_TYPES
                EmptyString []) as [H _].
    apply H. reflexivity.
  - destruct (classifyQuery_network_use sample_ToNumber failing_network
                (ModelManager.new "QUALITY_OPTIMIZED") TASK_TYPES
                "Summarize this report" []) as (_ & H & _).
    rewrite H; [reflexivity | discriminate | vm_compute; discriminate].
  - destruct (classifyQuery_network_use sample_ToNumber failing_network
                (ModelManager.new "QUALITY_OPTIMIZED") TASK_TYPES
                "Hello there" []) as (_ & _ & H).
    destruct H as [answer H]; [discriminate | vm_compute; reflexivity |].
    rewrite H. reflexivity.
Defined.

Lemma addCustomModel_lookup_witness :
  ModelManager.getModelConfig
    (AIOrchestrator.addCustomModel MODEL_REGISTRY "gemma-7b-it" sample_config)
    "gemma-7b-it" = Some sample_config
  /\ ModelManager.getModelConfig
       (AIOrchestrator.addCustomModel MODEL_REGISTRY "gemma-7b-it"
          sample_config) "gpt-4"
     = MODEL_REGISTRY !! "gpt-4"
  /\ ModelManager.getModelConfig
       (AIOrchestrator.addCustomModel MODEL_REGISTRY "llama3-8b-8192"
          sample_config) "no-such-model"
     = Some sample_config.
Proof.
  assert (forall x : string,
             x ∈ ["gemma-7b-it"; "gpt-4"; "llama3-8b-8192"; "no-such-model"] ->
             x ∉ inheritedNames) as Hown.
  { intros x Hx Hin. apply list_elem_of_In in Hx, Hin. simpl in Hx, Hin.
    intuition (subst; discriminate). }
  split; [|split].
  - destruct (addCustomModel_lookup MODEL_REGISTRY "gemma-7b-it" "gpt-4"
                sample_config) as [H _];
      [apply Hown, list_elem_of_In; simpl; tauto..|exact H].
  - destruct (addCustomModel_lookup MODEL_REGISTRY "gemma-7b-it" "gpt-4"
                sample_config) as (_ & H & _);
      [apply Hown, list_elem_of_In; simpl; tauto..|].
    apply H; [discriminate | by eexists].
  - destruct (addCustomModel_lookup MODEL_REGISTRY "llama3-8b-8192"
                "no-such-model" sample_config) as (_ & _ & H);
      [apply Hown, list_elem_of_In; simpl; tauto..|].
    apply H; [discriminate | reflexivity].
Defined.

(** *** models.js and contextManager.js: an unregistered model *)

(** X4: A model identifier the registry does not have is served as the default
    model [llama3-8b-8192] by every reader of the registry: the
    configuration, the capabilities, the cost, the context selection and
    the context statistics. *)
Theorem unregistered_model_is_default (registry : gmap string ModelConfig)
    (modelId : string) :
  modelId ∉ inheritedNames ->
  registry !! modelId = None ->
  ModelManager.getModelConfig registry modelId = registry !! "llama3-8b-8192"
  /\ (forall capability,
         ModelManager.modelSupportsCapability registry modelId capability
         = ModelManager.modelSupportsCapability registry "llama3-8b-8192"
             capability)
  /\ (forall inputTokens outputTokens,
         ModelManager.estimateCost registry modelId inputTokens outputTokens
         = ModelManager.estimateCost registry "llama3-8b-8192" inputTokens
             outputTokens)
  /\ (forall (contextMessages : list Message) n,
         ContextManager.selectContextMessages AIOrchestrator.noMessage
           registry contextMessages modelId n
         = ContextManager.selectContextMessages AIOrchestrator.noMessage
             registry contextMessages "llama3-8b-8192" n)
  /\ (forall contextMessages,
         ContextManager.getContextStats registry contextMessages modelId
         = ContextManager.getContextStats registry contextMessages
             "llama3-8b-8192").
Proof.
  intros Hown Hnone.
  assert (ModelManager.getModelConfig registry modelId
          = ModelManager.getModelConfig registry "llama3-8b-8192") as Hcfg.
  { unfold ModelManager.getModelConfig. rewrite Hnone.
    by destruct (registry !! "llama3-8b-8192"). }
  assert (ModelManager.getModelConfigValue registry modelId
          = ModelManager.getModelConfigValue registry "llama3-8b-8192")
    as Hvalue.
  { rewrite !getModelConfigValue_own, Hcfg; [reflexivity | | assumption].
    intros Hin. apply list_elem_of_In in Hin. simpl in Hin.
    intuition discriminate. }
  split.
  { unfold ModelManager.getModelConfig. by rewrite Hnone. }
  unfold ModelManager.modelSupportsCapability, ModelManager.estimateCost,
    ContextManager.selectContextMessages, ContextManager.getContextStats.
  by rewrite Hcfg, Hvalue.
Qed.

Lemma unregistered_model_is_default_witness :
  ModelManager.getModelConfig MODEL_REGISTRY "llama-3-8b"
  = MODEL_REGISTRY !! "llama3-8b-8192"
  /\ ModelManager.modelSupportsCapability MODEL_REGISTRY "llama-3-8b"
       "creation" = Some false.
Proof.
  destruct (unregistered_model_is_default MODEL_REGISTRY "llama-3-8b")
    as (H1 & H2 & _).
  - intros Hin. apply list_elem_of_In in Hin. simpl in Hin.
    intuition discriminate.
  - reflexivity.
  - split; [exact H1|]. rewrite H2. reflexivity.
Defined.

(** *** llmClient.js: keys, endpoints and requests *)

Section ClientStore.

(** X20: A key set for a provider is the key read back for it, the keys of
    the other providers stay as they were, and so does the endpoint of
    every provider, the one of the key included; the same holds for
    setting an endpoint, with the key of every provider staying as it
    was. *)
Theorem client_store_round_trip (this : LLMClient.t) (provider : string)
    (key : option string) (endpoint : string) :
  provider ∉ inheritedNames ->
  LLMClient.getApiKey (LLMClient.setApiKey this provider key) provider = key
  /\ (forall other,
         other <> provider ->
         LLMClient.getApiKey (LLMClient.setApiKey this provider key) other
         = LLMClient.getApiKey this other)
  /\ (forall any,
         LLMClient.getEndpoint (LLMClient.setApiKey this provider key) any
         = LLMClient.getEndpoint this any)
  /\ LLMClient.getEndpoint (LLMClient.setEndpoint this provider endpoint)
       provider = Some endpoint
  /\ (forall other,
         other <> provider ->
         LLMClient.getEndpoint (LLMClient.setEndpoint this provider endpoint)
           other = LLMClient.getEndpoint this other)
  /\ (forall any,
         LLMClient.getApiKey (LLMClient.setEndpoint this provider endpoint)
           any = LLMClient.getApiKey this any).
Proof.
  intros _.
  unfold LLMClient.getApiKey, LLMClient.setApiKey, LLMClient.getEndpoint,
    LLMClient.setEndpoint. cbn [LLMClient.apiKeys LLMClient.endpoints].
  rewrite !lookup_insert_eq.
  repeat split; try reflexivity; intros other Hne;
    by rewrite lookup_insert_ne.
Qed.

Lemma client_store_round_trip_witness :
  LLMClient.getApiKey (LLMClient.setApiKey LLMClient.new "groq" (Some "gsk"))
    "groq" = Some "gsk"
  /\ LLMClient.getApiKey (LLMClient.setApiKey LLMClient.new "groq" (Some "gsk"))
       "openai" = None
  /\ LLMClient.getEndpoint
       (LLMClient.setApiKey LLMClient.new "groq" (Some "gsk")) "groq"
     = Some "https://api.groq.com/openai/v1/chat/completions"
  /\ LLMClient.getApiKey
       (LLMClient.setEndpoint LLMClient.new "groq" "https://example.org")
       "groq" = None.
Proof.
  destruct (client_store_round_trip LLMClient.new "groq"
              (Some "gsk") "https://example.org")
    as (Hkey & Hkeys & Hendpoints & _ & _ & Hkept).
  - intros Hin. apply list_elem_of_In in Hin. simpl in Hin.
    intuition discriminate.
  - split; [exact Hkey|].
    split; [rewrite Hkeys; [reflexivity | discriminate]|].
    split; [rewrite Hendpoints; reflexivity|].
    rewrite Hkept. reflexivity.
Defined.

(** The provider is always groq, openai or anthropic. *)
Lemma getProviderFromModel_range (model : string) :
  LLMClient.getProviderFromModel model ∈ ["groq"; "openai"; "anthropic"].
Proof.
  unfold LLMClient.getProviderFromModel.
  destruct (_ || _); [|destruct (JsString.includes model "gpt");
                        [|destruct (JsString.includes model "claude")]];
    apply list_elem_of_In; simpl; tauto.
Qed.

(** X21: A request carries the key of the provider of its model and of no
    other: a key set for another provider changes nothing in the request,
    a non-empty key of the provider is sent as a Bearer token, and without
    a key, or with an empty one, no Authorization header is sent. *)
Theorem request_key_isolation (this : LLMClient.t) (params : Params)
    (provider : string) (key : option string) :
  let own := LLMClient.getProviderFromModel (params_model params) in
  (provider <> own ->
   LLMClient.requestOf (LLMClient.setApiKey this provider key) params
   = LLMClient.requestOf this params)
  /\ (forall secret,
         JsString.truthy secret = true ->
         headers (LLMClient.requestOf
                    (LLMClient.setApiKey this own (Some secret)) params)
         = [("Content-Type", "application/json");
            ("Authorization", "Bearer " +:+ secret)])
  /\ headers (LLMClient.requestOf
                (LLMClient.setApiKey this own None) params)
     = [("Content-Type", "application/json")]
  /\ headers (LLMClient.requestOf
                (LLMClient.setApiKey this own (Some EmptyString)) params)
     = [("Content-Type", "application/json")]
  /\ headers (LLMClient.requestOf LLMClient.new params)
     = [("Content-Type", "application/json")].
Proof.
  intros own. subst own.
  unfold LLMClient.requestOf, LLMClient.getApiKey, LLMClient.setApiKey.
  cbn [LLMClient.apiKeys LLMClient.endpoints headers].
  split; [|split; [|split; [|split]]].
  - intros Hne. by rewrite lookup_insert_ne.
  - intros secret Hs. by rewrite lookup_insert_eq, Hs.
  - by rewrite lookup_insert_eq.
  - by rewrite lookup_insert_eq.
  - pose proof (getProviderFromModel_range (params_model params)) as Hp.
    repeat (apply elem_of_cons in Hp; destruct Hp as [->|Hp];
            [reflexivity|]).
    by apply elem_of_nil in Hp.
Qed.

Lemma request_key_isolation_witness :
  LLMClient.requestOf
    (LLMClient.setApiKey LLMClient.new "anthropic" (Some "sk-ant"))
    sample_params
  = LLMClient.requestOf LLMClient.new sample_params
  /\ headers (LLMClient.requestOf
                (LLMClient.setApiKey LLMClient.new "openai" (Some "sk-1"))
                sample_params)
     = [("Content-Type", "application/json");
        ("Authorization", "Bearer sk-1")].
Proof.
  split.
  - destruct (request_key_isolation LLMClient.new sample_params "anthropic"
                (Some "sk-ant")) as [H _].
    apply H. discriminate.
  - destruct (request_key_isolation LLMClient.new sample_params "openai"
                None) as (_ & H & _).
    apply (H "sk-1"). reflexivity.
Defined.

(** X22: A request goes to the endpoint of the provider of its model: one of
    the three built-in endpoints for a fresh client, and an endpoint set
    for that provider afterwards, provided it is not the empty string. *)
Theorem request_url (this : LLMClient.t) (params : Params)
    (endpoint : string) :
  JsString.truthy endpoint = true ->
  url (LLMClient.requestOf
         (LLMClient.setEndpoint this
            (LLMClient.getProviderFromModel (params_model params)) endpoint)
         params)
  = Some endpoint
  /\ url (LLMClient.requestOf LLMClient.new params)
     = LLMClient.getEndpoint LLMClient.new
         (LLMClient.getProviderFromModel (params_model params))
  /\ is_Some (url (LLMClient.requestOf LLMClient.new params)).
Proof.
  intros Hend.
  unfold LLMClient.requestOf, LLMClient.setEndpoint, LLMClient.getEndpoint.
  cbn [LLMClient.endpoints url].
  split; [|].
  - rewrite lookup_insert_eq. unfold js_or_string. by rewrite Hend.
  - pose proof (getProviderFromModel_range (params_model params)) as Hp.
    repeat (apply elem_of_cons in Hp; destruct Hp as [->|Hp];
            [split; [reflexivity | by eexists]|]).
    by apply elem_of_nil in Hp.
Qed.

Lemma request_url_witness :
  url (LLMClient.requestOf
         (LLMClient.setEndpoint LLMClient.new "openai" "https://example.org/v1")
         sample_params)
  = Some "https://example.org/v1".
Proof.
  destruct (request_url LLMClient.new sample_params "https://example.org/v1")
    as [H _]; [reflexivity | exact H].
Defined.

End ClientStore.

Section TestModel.
Variable net : Request -> FetchOutcome.

(** X23: [testModel] never throws and sends one request; it answers true
    exactly when the response is 2xx and its body parses, whatever the
    payload says. *)
Theorem testModel_spec (this : LLMClient.t) (model : string)
    (log : list Request) :
  let request := LLMClient.requestOf this (testParamsOf model) in
  exists answer,
    LLMClient.testModel net this model log
    = (Returns answer, log ++ [request])
    /\ (answer = true
        <-> exists r result,
              net request = FetchResolves r
              /\ ok r = true /\ json r = Returns result).
Proof.
  intros request. subst request.
  unfold LLMClient.testModel, try_catch, bind, ret.
  fold (testParamsOf model). rewrite callLLM_outcome.
  eexists. split; [reflexivity|].
  destruct (net (LLMClient.requestOf this (testParamsOf model))) as [e|r].
  - unfold LLMClient.createErrorResponse. rewrite withMetadata_success.
    split; [discriminate | intros (r & result & H & _); discriminate H].
  - destruct (ok r) eqn:Eok.
    + destruct (json r) as [result|e] eqn:Ejson.
      * unfold LLMClient.createSuccessResponse. rewrite withMetadata_success.
        split; [intros _; by exists r, result | reflexivity].
      * unfold LLMClient.createErrorResponse. rewrite withMetadata_success.
        split; [discriminate|].
        intros (r' & result & [= <-] & _ & H). rewrite Ejson in H.
        discriminate H.
    + assert (exists env, match text r with
                          | Returns errorText =>
                              LLMClient.createErrorResponse "LLM call failed"
                                errorText (testParamsOf model)
                          | Throws e =>
                              LLMClient.createErrorResponse "LLM call error"
                                (message e) (testParamsOf model)
                          end = LLMClient.withMetadata (testParamsOf model)
                                  false env) as [env ->]
        by (destruct (text r); eexists; reflexivity).
      rewrite withMetadata_success.
      split; [discriminate|].
      intros (r' & result & [= <-] & H & _). rewrite Eok in H. discriminate H.
Qed.

End TestModel.

(** *** index.js: one query through the orchestrator *)

Section QueryProperties.
Variable ToNumber : Json -> float.
Variable net : Request -> FetchOutcome.
Variable undefinedModelMessage : string.

Lemma classifyQuery_nonempty (modelManager : ModelManager.t)
    (taskTypes : list (string * TaskConfig)) (queryText : string)
    (log : list Request) :
  queryText <> EmptyString ->
  exists answer log_c,
    TaskClassifier.classifyQuery ToNumber net modelManager taskTypes
      queryText log
    = (Returns
         (mkClassification answer (Some "llama3-8b-8192")
            (analysis_complexity (TextComplexityAnalyzer.analyze queryText))
            (analysis_reason (TextComplexityAnalyzer.analyze queryText))
            (Some (analysis_stats (TextComplexityAnalyzer.analyze queryText)))),
       log ++ log_c)
    /\ (log_c = [] \/ log_c = [TaskClassifier.classificationRequest queryText]).
Proof.
  intros Hq.
  assert (JsString.truthy queryText = true) as Htruthy
    by (by destruct queryText).
  destruct (String.eqb (TaskClassifier.determineTaskType taskTypes queryText)
              "LLM_Default") eqn:Escan.
  - apply String.eqb_eq in Escan.
    destruct (classifyQuery_default_scan ToNumber net modelManager taskTypes
                queryText log Htruthy Escan) as (answer & Hrun & _).
    exists answer, [TaskClassifier.classificationRequest queryText].
    split; [exact Hrun | by right].
  - unfold TaskClassifier.classifyQuery, TaskClassifier.getModelForTask.
    rewrite Htruthy, Escan.
    exists (TaskClassifier.determineTaskType taskTypes queryText), [].
    rewrite app_nil_r. split; [reflexivity | by left].
Qed.

Lemma optimizeContext_length (registry : gmap string ModelConfig)
    (contextMessages : list Message) (model : string) (maxTokens : Z) :
  (length (ContextManager.optimizeContext registry contextMessages model
             maxTokens)
   <= length contextMessages)%nat.
Proof.
  unfold ContextManager.optimizeContext.
  destruct (optimizeLoop_shape (ContextManager.maxContextTokensOf maxTokens)
              (rev contextMessages) 0 [])
    as (taken & rest & Hsplit & _ & Hres); [reflexivity | lia |].
  assert (length contextMessages = (length taken + length rest)%nat) as ->
    by (rewrite <- length_rev, Hsplit, length_app; reflexivity).
  destruct Hres as [-> | (message & earlier & -> & -> & _)];
    rewrite ?length_cons, length_app, length_rev; simpl; lia.
Qed.

Lemma slice_from_length {A : Type} (start : Z) (l : list A) :
  start < 0 -> Z.of_nat (length (slice_from start l)) <= - start.
Proof.
  intros Hneg. unfold slice_from.
  assert ((start <? 0) = true) as -> by (by apply Z.ltb_lt).
  rewrite length_drop. lia.
Qed.

(** The steps of [processQuery] for a non-empty query, over a registry that
    has the default model. *)
Lemma processQuery_eval (this : AIOrchestrator.t)
    (registry : gmap string ModelConfig)
    (taskTypes : list (string * TaskConfig)) (queryText : string)
    (chatHistory : option ChatHistory) (log : list Request)
    (config : ModelConfig) :
  queryText <> EmptyString ->
  registry !! "llama3-8b-8192" = Some config ->
  exists classification log_c selected envelope contextStats,
    TaskClassifier.classifyQuery ToNumber net
      (AIOrchestrator.modelManager this) taskTypes queryText log
    = (Returns classification, log ++ log_c)
    /\ (log_c = [] \/ log_c = [TaskClassifier.classificationRequest queryText])
    /\ ContextManager.selectContextMessages AIOrchestrator.noMessage registry
         (ContextManager.processChatHistory chatHistory) "llama3-8b-8192"
         (maxContextMessages (contextConfig config)) = Some selected
    /\ let pm := AIOrchestrator.promptManager this in
       let maxTokens :=
         AIOrchestrator.getTokenLimit pm (task classification)
           (complexity classification) in
       let temperature :=
         AIOrchestrator.getTemperature pm (task classification)
           (complexity classification) 0 in
       let systemPrompt :=
         AIOrchestrator.getSystemPrompt pm (task classification) maxTokens
           (complexity classification) in
       let optimized :=
         ContextManager.optimizeContext registry selected "llama3-8b-8192"
           maxTokens in
       let params :=
         mkParams "llama3-8b-8192"
           (ContextManager.buildMessagesArray systemPrompt optimized queryText)
           maxTokens temperature (task classification)
           (complexity_name (complexity classification))
           (reason classification) (Some optimized) in
       LLMClient.callLLM net (AIOrchestrator.llmClient this) params
         (log ++ log_c)
       = (Returns envelope,
          (log ++ log_c)
          ++ [LLMClient.requestOf (AIOrchestrator.llmClient this) params])
       /\ ContextManager.getContextStats registry optimized "llama3-8b-8192"
          = Some contextStats
       /\ AIOrchestrator.processQuery ToNumber net undefinedModelMessage this
            registry taskTypes queryText chatHistory log
          = (Returns
               (AIOrchestrator.mkQueryResult (delete "metadata" envelope)
                  (AIOrchestrator.mkMetadata classification contextStats config
                     (AIOrchestrator.mkPromptInfo maxTokens temperature
                        systemPrompt))),
             (log ++ log_c)
             ++ [LLMClient.requestOf (AIOrchestrator.llmClient this) params]).
Proof.
  intros Hq Hconfig.
  destruct (classifyQuery_nonempty (AIOrchestrator.modelManager this)
              taskTypes queryText log Hq) as (answer & log_c & Hrun & Hlog).
  assert (ModelManager.getModelConfig registry "llama3-8b-8192" = Some config)
    as Hget by (unfold ModelManager.getModelConfig; by rewrite Hconfig).
  assert (exists selected,
             ContextManager.selectContextMessages AIOrchestrator.noMessage
               registry (ContextManager.processChatHistory chatHistory)
               "llama3-8b-8192" (maxContextMessages (contextConfig config))
             = Some selected) as [selected Hsel].
  { unfold ContextManager.selectContextMessages. rewrite Hget.
    destruct (ContextManager.processChatHistory chatHistory); eauto. }
  eexists _, log_c, selected, _, _.
  split; [exact Hrun|]. split; [exact Hlog|]. split; [exact Hsel|].
  cbn zeta. cbn [task complexity reason model].
  split; [apply callLLM_outcome|].
  split.
  { unfold ContextManager.getContextStats. rewrite Hget. reflexivity. }
  unfold AIOrchestrator.processQuery, bind. rewrite Hrun.
  cbn [task complexity reason model AIOrchestrator.modelKey].
  rewrite Hget, Hsel. unfold AIOrchestrator.callLLMWith.
  cbn [task complexity reason model].
  rewrite callLLM_outcome.
  unfold ContextManager.getContextStats. rewrite Hget. reflexivity.
Qed.

(** X24: For a non-empty query and a registry with the default model,
    [processQuery] never throws and sends one or two requests: the
    classification request when no keyword decides, and then the
    completion request, which names the model [llama3-8b-8192] and goes
    to the endpoint of groq whatever strategy the model manager has. *)
Theorem processQuery_requests (this : AIOrchestrator.t)
    (registry : gmap string ModelConfig)
    (taskTypes : list (string * TaskConfig)) (queryText : string)
    (chatHistory : option ChatHistory) (log : list Request) :
  queryText <> EmptyString ->
  is_Some (registry !! "llama3-8b-8192") ->
  exists result log_c request,
    AIOrchestrator.processQuery ToNumber net undefinedModelMessage this
      registry taskTypes queryText chatHistory log
    = (Returns result, log ++ log_c ++ [request])
    /\ (log_c = [] \/ log_c = [TaskClassifier.classificationRequest queryText])
    /\ body_model (body request) = "llama3-8b-8192"
    /\ method request = "POST"
    /\ url request
       = LLMClient.getEndpoint (AIOrchestrator.llmClient this) "groq"
    /\ (TaskClassifier.determineTaskType taskTypes queryText <> "LLM_Default"
        -> log_c = [])
    /\ (TaskClassifier.determineTaskType taskTypes queryText = "LLM_Default"
        -> log_c = [TaskClassifier.classificationRequest queryText]).
Proof.
  intros Hq [config Hconfig].
  destruct (processQuery_eval this registry taskTypes queryText chatHistory
              log config Hq Hconfig)
    as (c & log_c & selected & env & stats & Hclass & Hlog & _ & _ & _ & Hrun).
  assert (JsString.truthy queryText = true) as Htruthy
    by (by destruct queryText).
  eexists _, log_c, _. rewrite app_assoc.
  split; [exact Hrun|]. split; [exact Hlog|].
  split; [reflexivity|]. split; [reflexivity|]. split; [|split].
  - unfold LLMClient.requestOf, LLMClient.getEndpoint. cbn [url params_model].
    change (LLMClient.getProviderFromModel "llama3-8b-8192") with "groq".
    unfold js_or_string.
    destruct (LLMClient.endpoints (AIOrchestrator.llmClient this) !! "groq")
      as [e|]; [by destruct (JsString.truthy e) | reflexivity].
  - intros Hscan. apply String.eqb_neq in Hscan.
    unfold TaskClassifier.classifyQuery in Hclass.
    rewrite Htruthy, Hscan in Hclass. injection Hclass as _ Hsent.
    apply (app_inv_head log). by rewrite app_nil_r.
  - intros Hscan.
    destruct (classifyQuery_default_scan ToNumber net
                (AIOrchestrator.modelManager this) taskTypes queryText log
                Htruthy Hscan) as (answer & Hdefault & _).
    rewrite Hdefault in Hclass. injection Hclass as _ Hsent.
    by apply app_inv_head in Hsent.
Qed.

(** X25: For a non-empty query and the built-in registry, the messages of the
    completion request are the system prompt, then at most three context
    messages whose estimated tokens are at most one above 70% of the token
    limit of the prompt manager, then the query as the user message. *)
Theorem processQuery_messages (this : AIOrchestrator.t)
    (taskTypes : list (string * TaskConfig)) (queryText : string)
    (chatHistory : option ChatHistory) (log : list Request) :
  queryText <> EmptyString ->
  exists result log_c request classification context,
    AIOrchestrator.processQuery ToNumber net undefinedModelMessage this
      MODEL_REGISTRY taskTypes queryText chatHistory log
    = (Returns result, log ++ log_c ++ [request])
    /\ classification
       = AIOrchestrator.meta_classification (AIOrchestrator.metadata result)
    /\ let pm := AIOrchestrator.promptManager this in
       let maxTokens :=
         AIOrchestrator.getTokenLimit pm (task classification)
           (complexity classification) in
       body_max_tokens (body request) = maxTokens
       /\ body_messages (body request)
          = mkMessage "system"
              (AIOrchestrator.getSystemPrompt pm (task classification)
                 maxTokens (complexity classification))
            :: context ++ [mkMessage "user" queryText]
       /\ (length context <= 3)%nat
       /\ ContextManager.totalTokensOf context
          <= Z.max 0 (ContextManager.maxContextTokensOf maxTokens + 1).
Proof.
  intros Hq.
  destruct (MODEL_REGISTRY !! "llama3-8b-8192") as [config|] eqn:Hconfig;
    [|discriminate Hconfig].
  destruct (processQuery_eval this MODEL_REGISTRY taskTypes queryText
              chatHistory log config Hq Hconfig)
    as (c & log_c & selected & env & stats & _ & _ & Hsel & _ & _ & Hrun).
  injection Hconfig as <-.
  eexists _, log_c, _, c, _. rewrite app_assoc.
  split; [exact Hrun|]. split; [reflexivity|].
  cbn zeta. split; [reflexivity|]. split; [reflexivity|].
  split.
  - etransitivity; [apply optimizeContext_length|].
    destruct (ContextManager.processChatHistory chatHistory) as [|m l].
    + injection Hsel as <-. simpl. lia.
    + change (Some (slice_from (-3) (m :: l)) = Some selected) in Hsel.
      injection Hsel as <-.
      pose proof (slice_from_length (-3) (m :: l)) as Hlen. lia.
  - unfold ContextManager.optimizeContext. by apply optimizeLoop_bound.
Qed.

(** X26: The result of [processQuery] reports what was sent: the envelope and
    the context statistics of the metadata give the same number of context
    messages, the statistics give their estimated tokens, the envelope
    carries the classification's task, and a [metadata] key of the
    provider payload does not survive. *)
Theorem processQuery_metadata (this : AIOrchestrator.t)
    (registry : gmap string ModelConfig)
    (taskTypes : list (string * TaskConfig)) (queryText : string)
    (chatHistory : option ChatHistory) (log : list Request) :
  queryText <> EmptyString ->
  is_Some (registry !! "llama3-8b-8192") ->
  exists result log',
    AIOrchestrator.processQuery ToNumber net undefinedModelMessage this
      registry taskTypes queryText chatHistory log
    = (Returns result, log')
    /\ let meta := AIOrchestrator.metadata result in
       let contextStats := AIOrchestrator.meta_contextStats meta in
       AIOrchestrator.envelope result !! "metadata" = None
       /\ AIOrchestrator.envelope result !! "contextMessages"
          = Some (JNumber
                    (float_of_Z (ContextManager.messageCount contextStats)))
       /\ AIOrchestrator.envelope result !! "task"
          = Some (JString (task (AIOrchestrator.meta_classification meta)))
       /\ AIOrchestrator.envelope result !! "model"
          = Some (JString "llama3-8b-8192")
       /\ (exists success,
              AIOrchestrator.envelope result !! "success"
              = Some (JBool success))
       /\ Some (AIOrchestrator.meta_modelConfig meta)
          = registry !! "llama3-8b-8192"
       /\ 0 <= ContextManager.totalTokens contextStats
          <= Z.max 0
               (ContextManager.maxContextTokensOf
                  (AIOrchestrator.info_maxTokens
                     (AIOrchestrator.meta_promptInfo meta)) + 1).
Proof.
  intros Hq [config Hconfig].
  destruct (processQuery_eval this registry taskTypes queryText chatHistory
              log config Hq Hconfig)
    as (c & log_c & selected & env & stats & _ & _ & _ & Hcall & Hstats & Hrun).
  cbn zeta in Hcall, Hstats, Hrun.
  eexists _, _. split; [exact Hrun|].
  cbn zeta. cbn [AIOrchestrator.metadata AIOrchestrator.envelope
                 AIOrchestrator.meta_contextStats
                 AIOrchestrator.meta_classification
                 AIOrchestrator.meta_modelConfig
                 AIOrchestrator.meta_promptInfo
                 AIOrchestrator.info_maxTokens].
  rewrite callLLM_outcome in Hcall. injection Hcall as Henv.
  assert (exists success base,
             env = LLMClient.withMetadata
                     (mkParams "llama3-8b-8192"
                        (ContextManager.buildMessagesArray
                           (AIOrchestrator.getSystemPrompt
                              (AIOrchestrator.promptManager this) (task c)
                              (AIOrchestrator.getTokenLimit
                                 (AIOrchestrator.promptManager this) (task c)
                                 (complexity c)) (complexity c))
                           (ContextManager.optimizeContext registry selected
                              "llama3-8b-8192"
                              (AIOrchestrator.getTokenLimit
                                 (AIOrchestrator.promptManager this) (task c)
                                 (complexity c))) queryText)
                        (AIOrchestrator.getTokenLimit
                           (AIOrchestrator.promptManager this) (task c)
                           (complexity c))
                        (AIOrchestrator.getTemperature
                           (AIOrchestrator.promptManager this) (task c)
                           (complexity c) 0)
                        (task c) (complexity_name (complexity c)) (reason c)
                        (Some (ContextManager.optimizeContext registry selected
                                 "llama3-8b-8192"
                                 (AIOrchestrator.getTokenLimit
                                    (AIOrchestrator.promptManager this)
                                    (task c) (complexity c)))))
                     success base) as (success & base & ->).
  { rewrite <- Henv.
    destruct (net _) as [e|r];
      [|destruct (ok r); [destruct (json r)|destruct (text r)]];
      eexists _, _; reflexivity. }
  unfold ContextManager.getContextStats in Hstats.
  assert (ModelManager.getModelConfig registry "llama3-8b-8192" = Some config)
    as Hget by (unfold ModelManager.getModelConfig; by rewrite Hconfig).
  rewrite Hget in Hstats. injection Hstats as <-.
  cbn [ContextManager.messageCount ContextManager.totalTokens].
  pose proof (withMetadata_carries
                (mkParams "llama3-8b-8192"
                   (ContextManager.buildMessagesArray
                      (AIOrchestrator.getSystemPrompt
                         (AIOrchestrator.promptManager this) (task c)
                         (AIOrchestrator.getTokenLimit
                            (AIOrchestrator.promptManager this) (task c)
                            (complexity c)) (complexity c))
                      (ContextManager.optimizeContext registry selected
                         "llama3-8b-8192"
                         (AIOrchestrator.getTokenLimit
                            (AIOrchestrator.promptManager this) (task c)
                            (complexity c))) queryText)
                   (AIOrchestrator.getTokenLimit
                      (AIOrchestrator.promptManager this) (task c)
                      (complexity c))
                   (AIOrchestrator.getTemperature
                      (AIOrchestrator.promptManager this) (task c)
                      (complexity c) 0)
                   (task c) (complexity_name (complexity c)) (reason c)
                   (Some (ContextManager.optimizeContext registry selected
                            "llama3-8b-8192"
                            (AIOrchestrator.getTokenLimit
                               (AIOrchestrator.promptManager this)
                               (task c) (complexity c)))))
                success base) as (_ & Hmodel & Htask & _ & _ & Hcount).
  split; [apply lookup_delete_eq|].
  rewrite !lookup_delete_ne by discriminate.
  split; [exact Hcount|]. split; [exact Htask|]. split; [exact Hmodel|].
  split; [exists success; apply withMetadata_success|].
  split; [by rewrite Hconfig|].
  split; [apply totalTokensOf_nonneg|].
  unfold ContextManager.optimizeContext. by apply optimizeLoop_bound.
Qed.

End QueryProperties.

Lemma processQuery_requests_witness :
  exists result log_c request,
    AIOrchestrator.processQuery sample_ToNumber answering_network
      "Cannot read properties of undefined" sample_orchestrator MODEL_REGISTRY
      TASK_TYPES "Summarize this report" sample_history []
    = (Returns result, [] ++ log_c ++ [request])
    /\ (log_c = []
        \/ log_c
           = [TaskClassifier.classificationRequest "Summarize this report"])
    /\ body_model (body request) = "llama3-8b-8192"
    /\ method request = "POST"
    /\ url request
       = LLMClient.getEndpoint (AIOrchestrator.llmClient sample_orchestrator)
           "groq"
    /\ log_c = [].
Proof.
  destruct (processQuery_requests sample_ToNumber answering_network
              "Cannot read properties of undefined" sample_orchestrator
              MODEL_REGISTRY TASK_TYPES "Summarize this report"
              sample_history [])
    as (result & log_c & request & Hrun & Hlog & Hmodel & Hmethod & Hurl
        & Hkeyword & _);
    [discriminate | by eexists |].
  exists result, log_c, request.
  repeat split; try assumption.
  apply Hkeyword. vm_compute. discriminate.
Defined.

Lemma processQuery_messages_witness :
  exists result log_c request classification context,
    AIOrchestrator.processQuery sample_ToNumber answering_network
      "Cannot read properties of undefined" sample_orchestrator MODEL_REGISTRY
      TASK_TYPES "Summarize this report" sample_history []
    = (Returns result, [] ++ log_c ++ [request])
    /\ classification
       = AIOrchestrator.meta_classification (AIOrchestrator.metadata result)
    /\ let pm := AIOrchestrator.promptManager sample_orchestrator in
       let maxTokens :=
         AIOrchestrator.getTokenLimit pm (task classification)
           (complexity classification) in
       body_max_tokens (body request) = maxTokens
       /\ body_messages (body request)
          = mkMessage "system"
              (AIOrchestrator.getSystemPrompt pm (task classification)
                 maxTokens (complexity classification))
            :: context ++ [mkMessage "user" "Summarize this report"]
       /\ (length context <= 3)%nat
       /\ ContextManager.totalTokensOf context
          <= Z.max 0 (ContextManager.maxContextTokensOf maxTokens + 1).
Proof.
  apply (processQuery_messages sample_ToNumber answering_network).
  discriminate.
Defined.

Lemma processQuery_metadata_witness :
  exists result log',
    AIOrchestrator.processQuery sample_ToNumber answering_network
      "Cannot read properties of undefined" sample_orchestrator MODEL_REGISTRY
      TASK_TYPES "Summarize this report" sample_history []
    = (Returns result, log')
    /\ AIOrchestrator.envelope result !! "metadata" = None
    /\ AIOrchestrator.envelope result !! "model"
       = Some (JString "llama3-8b-8192").
Proof.
  destruct (processQuery_metadata sample_ToNumber answering_network
              "Cannot read properties of undefined" sample_orchestrator
              MODEL_REGISTRY TASK_TYPES "Summarize this report"
              sample_history [])
    as (result & log' & Hrun & Hmeta & _ & _ & Hmodel & _);
    [discriminate | by eexists |].
  exists result, log'. by repeat split.
Defined.

(** One query through the sample orchestrator: no classification call, one
    completion request with the system prompt, the two messages of the
    history and the query. *)
Example processQuery_sample :
  let run :=
    AIOrchestrator.processQuery sample_ToNumber answering_network
      "Cannot read properties of undefined" sample_orchestrator MODEL_REGISTRY
      TASK_TYPES "Summarize this report" sample_history [] in
  map (fun request => (url request, body_messages (body request))) (snd run)
  = [(Some "https://api.groq.com/openai/v1/chat/completions",
      [mkMessage "system" "You are a helpful assistant.";
       mkMessage "user" "What is the capital of France?";
       mkMessage "assistant" "The capital of France is Paris.";
       mkMessage "user" "Summarize this report"])].
Proof. vm_compute. reflexivity. Qed.

(** *** index.js: custom tasks *)

Section CustomTasks.

Lemma firstMatchingTask_app (entries more : list (string * TaskConfig))
    (query : string) :
  TaskClassifier.firstMatchingTask (entries ++ more) query
  = if String.eqb (TaskClassifier.firstMatchingTask entries query)
         "LLM_Default"
    then TaskClassifier.firstMatchingTask more query
    else TaskClassifier.firstMatchingTask entries query.
Proof.
  induction entries as [|[k v] entries IH]; [reflexivity|].
  rewrite <- app_comm_cons. cbn [TaskClassifier.firstMatchingTask].
  destruct (String.eqb k "LLM_Default") eqn:Ek; [exact IH|].
  destruct (existsb _ (keywords v)); [|exact IH].
  by rewrite Ek.
Qed.

(** X19: A custom task whose type is new and is not an array index is listed
    last and consulted last: a query that a keyword of the table decided
    keeps its task, and a query left to the default task gets the custom
    task exactly when one of its keywords occurs. *)
Theorem addCustomTask_consulted_last
    (taskTypes : list (string * TaskConfig)) (taskType : string)
    (config : TaskConfig) (queryText : string) :
  taskType ∉ TaskClassifier.getAvailableTasks taskTypes ->
  AIOrchestrator.arrayIndex taskType = None ->
  taskType <> "__proto__" ->
  taskType <> "LLM_Default" ->
  let extended := AIOrchestrator.addCustomTask taskTypes taskType config in
  let query := JsString.trim (JsString.toLowerCase queryText) in
  TaskClassifier.getAvailableTasks extended
  = TaskClassifier.getAvailableTasks taskTypes ++ [taskType]
  /\ (TaskClassifier.determineTaskType taskTypes queryText <> "LLM_Default" ->
      TaskClassifier.determineTaskType extended queryText
      = TaskClassifier.determineTaskType taskTypes queryText)
  /\ (TaskClassifier.determineTaskType taskTypes queryText = "LLM_Default" ->
      keywordOccurs query config ->
      TaskClassifier.determineTaskType extended queryText = taskType)
  /\ (TaskClassifier.determineTaskType taskTypes queryText = "LLM_Default" ->
      ~ keywordOccurs query config ->
      TaskClassifier.determineTaskType extended queryText = "LLM_Default").
Proof.
  intros Hnew Hindex _ Hne extended query. subst extended query.
  assert (AIOrchestrator.addCustomTask taskTypes taskType config
          = taskTypes ++ [(taskType, config)]) as ->.
  { unfold AIOrchestrator.addCustomTask. rewrite Hindex.
    assert (existsb (fun entry => String.eqb (fst entry) taskType) taskTypes
            = false) as ->; [|reflexivity].
    apply not_true_is_false. intros Hex.
    apply existsb_exists in Hex as ([k v] & Hin & Heq).
    apply String.eqb_eq in Heq. simpl in Heq. subst k.
    apply Hnew. unfold TaskClassifier.getAvailableTasks.
    apply list_elem_of_In, in_map_iff. by exists (taskType, v). }
  unfold TaskClassifier.determineTaskType, TaskClassifier.getAvailableTasks.
  rewrite map_app, firstMatchingTask_app.
  cbn [TaskClassifier.firstMatchingTask map fst].
  assert (String.eqb taskType "LLM_Default" = false) as ->
    by (by apply String.eqb_neq).
  split; [reflexivity|]. split; [|split].
  - intros Hold. apply String.eqb_neq in Hold. by rewrite Hold.
  - intros -> Hocc. cbn [String.eqb Ascii.eqb Bool.eqb].
    apply existsb_keywordOccurs in Hocc. by rewrite Hocc.
  - intros -> Hno. cbn [String.eqb Ascii.eqb Bool.eqb].
    destruct (existsb _ (keywords config)) eqn:E; [|reflexivity].
    by apply existsb_keywordOccurs in E.
Qed.

Lemma addCustomTask_consulted_last_witness :
  TaskClassifier.determineTaskType
    (AIOrchestrator.addCustomTask TASK_TYPES "LLM_Poetry" sample_task)
    "Write a poem about spring"
  = TaskClassifier.determineTaskType TASK_TYPES "Write a poem about spring"
  /\ TaskClassifier.determineTaskType
       (AIOrchestrator.addCustomTask TASK_TYPES "LLM_Poetry" sample_task)
       "A haiku, please"
     = "LLM_Poetry".
Proof.
  destruct (addCustomTask_consulted_last TASK_TYPES "LLM_Poetry" sample_task
              "Write a poem about spring") as (_ & H & _).
  { intros Hin. apply list_elem_of_In in Hin. simpl in Hin.
    intuition discriminate. }
  { reflexivity. }
  { discriminate. }
  { discriminate. }
  destruct (addCustomTask_consulted_last TASK_TYPES "LLM_Poetry" sample_task
              "A haiku, please") as (_ & _ & H' & _).
  { intros Hin. apply list_elem_of_In in Hin. simpl in Hin.
    intuition discriminate. }
  { reflexivity. }
  { discriminate. }
  { discriminate. }
  split.
  - apply H. vm_compute. discriminate.
  - apply H'; [reflexivity|].
    exists "haiku". split; [apply list_elem_of_In; simpl; tauto|].
    by exists "a ", ", please".
Defined.

(** A custom task whose type is an array index is enumerated first and so
    decides before the built-in tasks. *)
Example addCustomTask_index_first :
  TaskClassifier.getAvailableTasks
    (AIOrchestrator.addCustomTask TASK_TYPES "7" sample_task)
  = "7" :: TaskClassifier.getAvailableTasks TASK_TYPES
  /\ TaskClassifier.determineTaskType TASK_TYPES "Write a poem about spring"
     = "LLM_Creation"
  /\ TaskClassifier.determineTaskType
       (AIOrchestrator.addCustomTask TASK_TYPES "7" sample_task)
       "Write a poem about spring"
     = "7".
Proof. repeat split; reflexivity. Qed.

End CustomTasks.

(** *** taskClassifier.js: the statistics of a text *)

Section StatsProperties.

Lemma count_runs_bounds (p : ascii -> bool) (s : string) (inside : bool) :
  0 <= TextComplexityAnalyzer.count_runs p inside s <= JsString.length s.
Proof.
  unfold JsString.length. revert inside.
  induction s as [|c s IH]; intros inside; simpl; [lia|].
  destruct (p c); [destruct inside|];
    pose proof (IH true); pose proof (IH false); lia.
Qed.

Lemma count_blank_lines_bounds (s : string) :
  forall (newlines : nat) (inside : bool),
    ((0 < newlines)%nat -> inside = true) ->
    0 <= TextComplexityAnalyzer.count_blank_lines newlines s
    <= TextComplexityAnalyzer.count_runs JsString.isWhiteSpace inside s
       + (if inside && (newlines <=? 1)%nat then 1 else 0).
Proof.
  induction s as [|c s IH]; intros newlines inside Hin; simpl.
  - destruct (inside && _); lia.
  - destruct (JsString.isWhiteSpace c) eqn:Ews.
    + destruct (TextComplexityAnalyzer.isLineFeed c).
      * specialize (IH (S newlines) true ltac:(done)).
        destruct inside; [destruct newlines as [|[|n]]|
                          destruct newlines; [|specialize (Hin ltac:(lia)); done]];
          simpl in *; lia.
      * pose proof (IH newlines true ltac:(done)) as IH1.
        destruct inside; [simpl in *; lia|].
        destruct newlines; [|specialize (Hin ltac:(lia)); done].
        simpl in *. lia.
    + specialize (IH 0%nat false ltac:(lia)). simpl in IH.
      destruct (inside && _); lia.
Qed.

(** X15: The statistics of a non-empty text: its length; at least one word and
    at most one more than its characters; no more sentence ends than
    characters; at least one paragraph and no more paragraphs than words.
    The empty text has statistics of zero. *)
Theorem analyze_stats_bounds (text : string) :
  text <> EmptyString ->
  let stats := analysis_stats (TextComplexityAnalyzer.analyze text) in
  stat_length stats = JsString.length text
  /\ 1 <= wordCount stats <= JsString.length text + 1
  /\ 0 <= sentenceCount stats <= JsString.length text
  /\ 1 <= paragraphCount stats <= wordCount stats
  /\ analysis_stats (TextComplexityAnalyzer.analyze EmptyString)
     = mkTextStats 0 0 0 0 0%float.
Proof.
  intros Hne stats. subst stats.
  destruct text as [|c text]; [done|].
  unfold TextComplexityAnalyzer.analyze. cbn [JsString.truthy negb].
  set (t := String c text).
  destruct (JsString.length t <=? TEXT_LENGTH_THRESHOLDS_SHORT);
    [|destruct (JsString.length t <=? TEXT_LENGTH_THRESHOLDS_MEDIUM);
      [|destruct (JsString.length t <=? TEXT_LENGTH_THRESHOLDS_LONG)]];
    cbn [analysis_stats stat_length wordCount sentenceCount paragraphCount];
    pose proof (count_runs_bounds JsString.isWhiteSpace t false);
    pose proof (count_runs_bounds TextComplexityAnalyzer.isSentenceEnd t false);
    pose proof (count_blank_lines_bounds t 0%nat false ltac:(lia)) as Hb;
    simpl andb in Hb;
    (repeat split; try reflexivity; lia).
Qed.

Lemma analyze_stats_bounds_witness :
  wordCount (analysis_stats (TextComplexityAnalyzer.analyze "   ")) = 2
  /\ 1 <= paragraphCount (analysis_stats (TextComplexityAnalyzer.analyze "   "))
     <= wordCount (analysis_stats (TextComplexityAnalyzer.analyze "   ")).
Proof.
  split; [reflexivity|].
  destruct (analyze_stats_bounds "   ") as (_ & _ & _ & H & _);
    [discriminate | exact H].
Defined.

End StatsProperties.

Lemma selection_within_limit_witness :
  ContextManager.selectSmartMessages "?" ["a"; "b"; "c"; "d"; "e"] 3
  = ["a"; "d"; "e"]
  /\ ContextManager.selectComprehensiveMessages "?" ["a"; "b"; "c"; "d"; "e"] 3
     = ["a"; "c"; "e"].
Proof.
  destruct (selection_within_limit "?" "a" ["b"; "c"; "d"; "e"] 3)
    as (_ & H1 & H2 & _); [simpl; lia|].
  split; [exact H1 | exact H2].
Defined.
